(** * OpenInvoice: the development API (frontend/src/api/mock.ts) and the
      cart store (frontend/src/stores/cartStore.ts)

    The sources of the repository that implement the invoice operations are
    the TypeScript object [mockApi] and the Zustand store [useCartStore].
    Both are embedded here as functions over an explicit state:

    - the module-level variables of mock.ts ([sampleProducts],
      [sampleInvoices], [mockSettings], [invoiceCounter]) form the record
      [Mock.state], and every API method is a function from a state to a
      new state and an [ApiResponse];
    - a JavaScript [number] that carries an amount or a quantity is an
      IEEE 754 binary64 value, modelled by Rocq's primitive [float]
      (the same format and the same round-to-nearest-even arithmetic);
      a [number] that is a counter, an identifier or a length is an [N];
    - the readings of the system clock ([new Date()], [Date.now()]) are
      inputs of [invoices_create], gathered in the record [Mock.clock];
    - every method of [mockApi] awaits a timer first and then runs without
      another suspension point, so its body is one atomic state
      transformer;
    - the selection helpers of the scan page and the checkout of the
      invoice page, which call the API and the cart store, are functions
      over the same states. *)

From Stdlib Require Import ZArith NArith String Ascii List Lia.
From Stdlib Require Import DecimalString HexadecimalString DecimalN Sorted.
From Stdlib Require Import PrimFloat FloatOps SpecFloat Uint63.
From stdpp Require Import base list strings sorting.

Local Open Scope string_scope.
Local Open Scope list_scope.

(** ** JavaScript built-ins used by the sources *)

Module JS.

(** [String(n)] for a non-negative integer [n]. *)
Definition String_of_N (n : N) : string :=
  DecimalString.NilEmpty.string_of_uint (N.to_uint n).

(** [n.toString(16)] for a non-negative integer [n] (lowercase digits). *)
Definition toString16 (n : N) : string :=
  HexadecimalString.NilEmpty.string_of_uint (N.to_hex_uint n).

Fixpoint repeat_char (k : nat) (c : ascii) : string :=
  match k with
  | O => EmptyString
  | S k' => String c (repeat_char k' c)
  end.

(** [s.padStart(target, c)] with a one-character filler. *)
Definition padStart (target : nat) (c : ascii) (s : string) : string :=
  repeat_char (target - String.length s) c +:+ s.

(** [s.slice(0, k)]. *)
Definition slice0 (k : nat) (s : string) : string := substring 0 k s.

(** [s.split(sep)] with a one-character separator: the result always has
    at least one element, and the empty string splits into [[""]]. *)
Fixpoint split (sep : ascii) (s : string) : list string :=
  match s with
  | EmptyString => [EmptyString]
  | String c rest =>
      if Ascii.eqb c sep then EmptyString :: split sep rest
      else match split sep rest with
           | [] => [String c EmptyString]
           | h :: t => String c h :: t
           end
  end.

(** The number of occurrences of [sep] in [s], to count the fields of
    [split]. *)
Fixpoint count_char (sep : ascii) (s : string) : nat :=
  match s with
  | EmptyString => 0
  | String c rest =>
      (if Ascii.eqb c sep then 1 else 0) + count_char sep rest
  end.

(** [ids.includes(x)] on an array of integers. *)
Definition includes (ids : list N) (x : N) : bool := existsb (N.eqb x) ids.

(** The binary64 value of an integer (exact up to 2^53 in magnitude). *)
Definition float_of_Z (n : Z) : float :=
  if (n <? 0)%Z then PrimFloat.opp (PrimFloat.of_uint63 (Uint63.of_Z (- n)))
  else PrimFloat.of_uint63 (Uint63.of_Z n).

(** [Math.round(x)]: [x] itself when it is not finite or already integral,
    otherwise the integer closest to [x], a tie going toward +infinity;
    the result keeps the sign of [x] when it is zero.  The integer is
    computed exactly from the mantissa and exponent of [x]. *)
Definition Math_round (x : float) : float :=
  match Prim2SF x with
  | S754_finite s m e =>
      if (0 <=? e)%Z then x
      else
        let sm := if s then Z.neg m else Z.pos m in
        let n := ((2 * sm + 2 ^ (- e)) / 2 ^ (1 - e))%Z in
        if (n =? 0)%Z then (if s then PrimFloat.opp PrimFloat.zero
                            else PrimFloat.zero)
        else float_of_Z n
  | _ => x
  end.

(** [Math.floor(ms / 1000)] for a clock reading in milliseconds.  The
    quotient of two integers below 2^53 is off the next integer by at
    least 1/1000, more than the rounding error of the division for every
    value a [Date] can hold, so the floor is the integer quotient. *)
Definition floor_div_1000 (ms : N) : N := (ms / 1000)%N.

(** [x.toFixed(2)]: the integer [n] for which [n / 100] is closest to the
    exact value of [|x|] (the larger one on a tie), written with at least
    three digits and a point before the last two.  For [|x| >= 1e21]
    JavaScript switches to the exponent notation of [Number::toString];
    that range is outside this development and is rendered with the same
    digits as below it. *)
Definition toFixed2 (x : float) : string :=
  match Prim2SF x with
  | S754_nan => "NaN"
  | S754_infinity s => if s then "-Infinity" else "Infinity"
  | S754_zero _ => "0.00"
  | S754_finite s m e =>
      let n := if (0 <=? e)%Z then (100 * Z.pos m * 2 ^ e)%Z
               else ((200 * Z.pos m + 2 ^ (- e)) / 2 ^ (1 - e))%Z in
      let digits := padStart 3 "0" (String_of_N (Z.to_N n)) in
      let k := (String.length digits - 2)%nat in
      (if s then "-" else "") +:+ substring 0 k digits +:+ "." +:+
      substring k 2 digits
  end.

End JS.

(** ** Data model (frontend/src/types/api.ts) *)

Module ApiResponse.
Record t (T : Type) := mk {
  success : bool;
  data : option T;
  error : option string
}.
Arguments mk {T} _ _ _.
Arguments success {T} _.
Arguments data {T} _.
Arguments error {T} _.
Definition ok {T} (x : T) : t T := mk true (Some x) None.
Definition fail {T} (msg : string) : t T := mk false None (Some msg).
End ApiResponse.

Module Product.
Inductive status_t := active | inactive.
Record t := mk {
  id : string;
  name : string;
  description : string;
  price : float;
  vat_rate : float;
  barcode : option string;
  stock : float;
  status : status_t
}.
(** [p.status = v] *)
Definition set_status (v : status_t) (p : t) : t :=
  mk (id p) (name p) (description p) (price p) (vat_rate p) (barcode p)
     (stock p) v.
(** [p.status === 'active'] *)
Definition is_active (p : t) : bool :=
  match status p with active => true | inactive => false end.
End Product.

Module ReturnStatus.
Inductive t := none | returned.
Definition eqb (a b : t) : bool :=
  match a, b with
  | none, none | returned, returned => true
  | _, _ => false
  end.
End ReturnStatus.

Module InvoiceItem.
(** [id] and [invoice_id] are optional in the interface; every item that
    mock.ts stores carries both (the code reads them as [item.id!]). *)
Record t := mk {
  id : N;
  invoice_id : N;
  product_id : string;
  product_name : string;
  quantity : float;
  unit_price : float;
  vat_rate : float;
  line_total : float;
  return_status : ReturnStatus.t
}.
(** [item.return_status = v] *)
Definition set_return_status (v : ReturnStatus.t) (it : t) : t :=
  mk (id it) (invoice_id it) (product_id it) (product_name it) (quantity it)
     (unit_price it) (vat_rate it) (line_total it) v.
End InvoiceItem.

Module Status.
Inductive t := completed | returned | partial_return.
End Status.

Module Invoice.
Record t := mk {
  id : N;
  invoice_number : string;
  seller_id : string;
  store_name : string;
  subtotal : float;
  vat_amount : float;
  total : float;
  payment_method : string;
  customer_email : option string;
  previous_hash : option string;
  current_hash : string;
  qr_data : string;
  qr_image : option string;
  status : Status.t;
  created_at : string;
  items : list InvoiceItem.t;
  currency_symbol : option string
}.
(** The two in-place mutations of [invoices_process_return]:
    [invoice.items] after the loop and [invoice.status = st]. *)
Definition set_items_status (its : list InvoiceItem.t) (st : Status.t)
    (i : t) : t :=
  mk (id i) (invoice_number i) (seller_id i) (store_name i) (subtotal i)
     (vat_amount i) (total i) (payment_method i) (customer_email i)
     (previous_hash i) (current_hash i) (qr_data i) (qr_image i) st
     (created_at i) its (currency_symbol i).
(** The copy [{ ...invoice, qr_image: img }]. *)
Definition with_qr_image (img : string) (i : t) : t :=
  mk (id i) (invoice_number i) (seller_id i) (store_name i) (subtotal i)
     (vat_amount i) (total i) (payment_method i) (customer_email i)
     (previous_hash i) (current_hash i) (qr_data i) (Some img) (status i)
     (created_at i) (items i) (currency_symbol i).
End Invoice.

Module CartItem.
Record t := mk {
  product : Product.t;
  quantity : float
}.
End CartItem.

Module Settings.
Record t := mk {
  language : string;
  store_name : string;
  seller_id : string;
  printer_enabled : bool;
  smtp_host : string;
  smtp_port : N;
  smtp_username : string;
  smtp_password : string;
  smtp_use_tls : bool;
  keyboard_layout : string;
  currency_symbol : string;
  default_vat_rate : float
}.
End Settings.

Module Checks.
Record t := mk {
  format_valid : option bool;
  invoice_exists : option bool;
  hash_matches : option bool;
  total_matches : option bool;
  hash_verified : option bool
}.
End Checks.

Module ValidationResult.
Record t := mk {
  valid : bool;
  invoice_number : option string;
  error_message : option string;
  invoice_data : option Invoice.t;
  checks : option Checks.t
}.
End ValidationResult.

Module ChainVerification.
Record t := mk {
  valid : bool;
  checked_count : N;
  error_message : option string;
  failed_invoice_id : option N
}.
End ChainVerification.

Module ReturnResult.
Record t := mk {
  invoice_number : string;
  refund_amount : float;
  new_status : Status.t
}.
End ReturnResult.

(** ** The development API (frontend/src/api/mock.ts) *)

Module Mock.

Import JS.

(** The module-level variables of mock.ts. *)
Record state := mkState {
  sampleProducts : list Product.t;
  sampleInvoices : list Invoice.t;
  mockSettings : Settings.t;
  invoiceCounter : N
}.

Definition set_sampleProducts (ps : list Product.t) (s : state) : state :=
  mkState ps (sampleInvoices s) (mockSettings s) (invoiceCounter s).
Definition set_sampleInvoices (invs : list Invoice.t) (s : state) : state :=
  mkState (sampleProducts s) invs (mockSettings s) (invoiceCounter s).
Definition set_invoiceCounter (c : N) (s : state) : state :=
  mkState (sampleProducts s) (sampleInvoices s) (mockSettings s) c.

(** The clock as [invoices_create] reads it, in the order of the reads:
    [new Date().toISOString()], then [Date.now()] for the hash, then
    [Date.now()] for the QR payload (both in milliseconds). *)
Record clock := mkClock {
  toISOString : string;
  now_hash : N;
  now_qr : N
}.

Module ItemRequest.
Record t := mk {
  product_id : string;
  quantity : float
}.
End ItemRequest.

(** [Partial<Product>] as [products_create] reads it. *)
Module PartialProduct.
Record t := mk {
  id : option string;
  name : option string;
  description : option string;
  price : option float;
  vat_rate : option float;
  barcode : option string;
  stock : option float
}.
End PartialProduct.

(** [a || d] on an optional string: the empty string is falsy. *)
Definition or_string (a : option string) (d : string) : string :=
  match a with
  | Some (String c r) => String c r
  | _ => d
  end.

(** [a || d] on an optional number: 0, -0 and NaN are falsy. *)
Definition or_number (a : option float) (d : float) : float :=
  match a with
  | Some x => if PrimFloat.is_zero x || PrimFloat.is_nan x then d else x
  | None => d
  end.

(** [a || null] on an optional string. *)
Definition or_null (a : option string) : option string :=
  match a with
  | Some (String c r) => Some (String c r)
  | _ => None
  end.

Definition sampleProducts0 : list Product.t :=
  [ Product.mk "PROD001" "Espresso" "Single shot espresso"
      2.5%float 21%float (Some "1234567890123") 100%float Product.active;
    Product.mk "PROD002" "Cappuccino" "Espresso with steamed milk foam"
      3.5%float 21%float (Some "1234567890124") 100%float Product.active;
    Product.mk "PROD003" "Latte" "Espresso with steamed milk"
      4%float 21%float (Some "1234567890125") 100%float Product.active;
    Product.mk "PROD004" "Croissant" "Fresh butter croissant"
      2%float 21%float (Some "1234567890126") 50%float Product.active;
    Product.mk "PROD005" "Muffin" "Chocolate chip muffin"
      2.5%float 21%float (Some "1234567890127") 30%float Product.active;
    Product.mk "PROD006" "Sandwich" "Ham and cheese sandwich"
      5.5%float 21%float (Some "1234567890128") 20%float Product.active ].

(** 2.1 and 12.1 denote the closest binary64 values, as in JavaScript. *)
#[warnings="-inexact-float"]
Definition sampleInvoice1 : Invoice.t :=
  Invoice.mk 1 "INV-2024-0001" "SELLER001" "Demo Store"
    10%float 2.1%float 12.1%float "cash" None None "a1b2c3d4e5f6g7h8"
    "OPENINVOICE|v1|INV-2024-0001|12.10|a1b2c3d4|1706745600" None
    Status.completed "2024-01-31T10:30:00"
    [ InvoiceItem.mk 1 1 "PROD001" "Espresso" 2%float 2.5%float 21%float
        5%float ReturnStatus.none;
      InvoiceItem.mk 2 1 "PROD004" "Croissant" 2%float 2%float 21%float
        4%float ReturnStatus.none ]
    None.

Definition sampleInvoices0 : list Invoice.t := [ sampleInvoice1 ].

Definition mockSettings0 : Settings.t :=
  Settings.mk "en" "Demo Store" "SELLER001" false "" 587 "" "" true "qwerty"
    "â‚¬" 21%float.

Definition mockQrImage : string :=
  "iVBORw0KGgoAAAANSUhEUgAAAAEAAAABCAYAAAAfFcSJAAAADUlEQVR42mNk+M9QDwADhgGAWjR9awAAAABJRU5ErkJggg==".

(** The state in which the module is loaded:
    [let invoiceCounter = sampleInvoices.length]. *)
Definition initial_state : state :=
  mkState sampleProducts0 sampleInvoices0 mockSettings0
    (N.of_nat (length sampleInvoices0)).

(** [products_create(data)] *)
Definition products_create (s : state) (data : PartialProduct.t)
    : state * ApiResponse.t Product.t :=
  let newProduct :=
    Product.mk
      (or_string (PartialProduct.id data)
         ("PROD" +:+ padStart 3 "0"
            (String_of_N (N.of_nat (length (sampleProducts s)) + 1))))
      (or_string (PartialProduct.name data) "New Product")
      (or_string (PartialProduct.description data) "")
      (or_number (PartialProduct.price data) 0%float)
      (or_number (PartialProduct.vat_rate data) 21%float)
      (or_null (PartialProduct.barcode data))
      (or_number (PartialProduct.stock data) 0%float)
      Product.active in
  (set_sampleProducts (sampleProducts s ++ [newProduct]) s,
   ApiResponse.ok newProduct).

(** [sampleProducts.find((p) => p.id === id)] *)
Definition find_product (ps : list Product.t) (id : string)
    : option Product.t :=
  List.find (fun p => String.eqb (Product.id p) id) ps.

(** The [for (const item of items)] loop of [invoices_create], with its
    three accumulators; [inl] is the early return on an unknown product. *)
Fixpoint create_loop (ps : list Product.t) (invoice_id : N)
    (items : list ItemRequest.t) (subtotal vatTotal : float)
    (invoiceItems : list InvoiceItem.t)
    : string + (float * float * list InvoiceItem.t) :=
  match items with
  | [] => inr (subtotal, vatTotal, invoiceItems)
  | item :: rest =>
      match find_product ps (ItemRequest.product_id item) with
      | None =>
          inl ("Product " +:+ ItemRequest.product_id item +:+ " not found")
      | Some product =>
          let lineTotal :=
            PrimFloat.mul (Product.price product) (ItemRequest.quantity item) in
          let vatAmount :=
            PrimFloat.mul lineTotal
              (PrimFloat.div (Product.vat_rate product) 100%float) in
          create_loop ps invoice_id rest
            (PrimFloat.add subtotal lineTotal)
            (PrimFloat.add vatTotal vatAmount)
            (invoiceItems ++
               [ InvoiceItem.mk (N.of_nat (length invoiceItems) + 1)
                   invoice_id (Product.id product) (Product.name product)
                   (ItemRequest.quantity item) (Product.price product)
                   (Product.vat_rate product) lineTotal ReturnStatus.none ])
      end
  end.

(** [Math.round(x * 100) / 100] *)
Definition round_cents (x : float) : float :=
  PrimFloat.div (Math_round (PrimFloat.mul x 100%float)) 100%float.

(** [invoices_create(items, paymentMethod, customerEmail)].  The counter
    is incremented before the products are looked up, so it also advances
    when the call fails. *)
Definition invoices_create (s : state) (clk : clock)
    (items : list ItemRequest.t) (paymentMethod : string)
    (customerEmail : option string) : state * ApiResponse.t Invoice.t :=
  let counter := (invoiceCounter s + 1)%N in
  let s1 := set_invoiceCounter counter s in
  let invoiceNumber := "INV-2024-" +:+ padStart 4 "0" (String_of_N counter) in
  match create_loop (sampleProducts s) counter items
          PrimFloat.zero PrimFloat.zero [] with
  | inl err => (s1, ApiResponse.fail err)
  | inr (subtotal, vatTotal, invoiceItems) =>
      let total := PrimFloat.add subtotal vatTotal in
      let timestamp := toISOString clk in
      let hash := "mock" +:+ toString16 (now_hash clk) in
      let invoice :=
        Invoice.mk counter invoiceNumber
          (Settings.seller_id (mockSettings s))
          (Settings.store_name (mockSettings s))
          (round_cents subtotal) (round_cents vatTotal) (round_cents total)
          paymentMethod customerEmail None hash
          ("OPENINVOICE|v1|" +:+ invoiceNumber +:+ "|" +:+ toFixed2 total
             +:+ "|" +:+ slice0 8 hash +:+ "|"
             +:+ String_of_N (floor_div_1000 (now_qr clk)))
          (Some mockQrImage) Status.completed timestamp invoiceItems
          (Some (Settings.currency_symbol (mockSettings s))) in
      (set_sampleInvoices (sampleInvoices s ++ [invoice]) s1,
       ApiResponse.ok invoice)
  end.

(** [sampleInvoices.find((i) => i.invoice_number === invoiceNumber)],
    with the position of the record found: the record is mutated in
    place by [invoices_process_return]. *)
Definition find_invoice (invs : list Invoice.t) (invoiceNumber : string)
    : option (nat * Invoice.t) :=
  list_find (fun i => Invoice.invoice_number i = invoiceNumber) invs.

(** [invoices_get_by_number(invoiceNumber)] *)
Definition invoices_get_by_number (s : state) (invoiceNumber : string)
    : ApiResponse.t Invoice.t :=
  match find_invoice (sampleInvoices s) invoiceNumber with
  | Some (_, invoice) =>
      ApiResponse.ok (Invoice.with_qr_image mockQrImage invoice)
  | None => ApiResponse.fail "Invoice not found"
  end.

(** The loop of [invoices_process_return] over [invoice.items]: the lines
    after the loop ... *)
Definition mark_returned (itemIds : list N) (its : list InvoiceItem.t)
    : list InvoiceItem.t :=
  map (fun item =>
         if includes itemIds (InvoiceItem.id item)
         then InvoiceItem.set_return_status ReturnStatus.returned item
         else item) its.

(** ... and [refundAmount] after the loop, starting from 0. *)
Definition refund_of (itemIds : list N) (its : list InvoiceItem.t) : float :=
  fold_left (fun refundAmount item =>
               if includes itemIds (InvoiceItem.id item)
               then PrimFloat.add refundAmount (InvoiceItem.line_total item)
               else refundAmount) its PrimFloat.zero.

(** [items.every((i) => i.return_status === 'returned')] *)
Definition every_returned (its : list InvoiceItem.t) : bool :=
  forallb (fun i => ReturnStatus.eqb (InvoiceItem.return_status i)
                      ReturnStatus.returned) its.

(** [invoices_process_return(invoiceNumber, itemIds)] *)
Definition invoices_process_return (s : state) (invoiceNumber : string)
    (itemIds : list N) : state * ApiResponse.t ReturnResult.t :=
  match find_invoice (sampleInvoices s) invoiceNumber with
  | None => (s, ApiResponse.fail "Invoice not found")
  | Some (k, invoice) =>
      let refundAmount := refund_of itemIds (Invoice.items invoice) in
      let items' := mark_returned itemIds (Invoice.items invoice) in
      let allReturned := every_returned items' in
      let status' :=
        if allReturned then Status.returned else Status.partial_return in
      (set_sampleInvoices
         (<[k := Invoice.set_items_status items' status' invoice]>
            (sampleInvoices s)) s,
       ApiResponse.ok (ReturnResult.mk invoiceNumber refundAmount status'))
  end.

(** [parts[k]], read only where [parts] is known to be long enough. *)
Definition part (k : nat) (parts : list string) : string :=
  List.nth k parts "".

(** The format test of [qr_validate]:
    [parts.length !== 6 || parts[0] !== 'OPENINVOICE']. *)
Definition bad_format (parts : list string) : bool :=
  negb (Nat.eqb (length parts) 6)
  || negb (bool_decide (parts !! 0%nat = Some "OPENINVOICE")).

Definition all_checks_true : Checks.t :=
  Checks.mk (Some true) (Some true) (Some true) (Some true) (Some true).

(** [qr_validate(qrData)] *)
Definition qr_validate (s : state) (qrData : string)
    : ApiResponse.t ValidationResult.t :=
  let parts := split "|" qrData in
  if bad_format parts then
    ApiResponse.mk false
      (Some (ValidationResult.mk false None (Some "Invalid QR code format")
               None None))
      None
  else
    let invoiceNumber := part 2 parts in
    match find_invoice (sampleInvoices s) invoiceNumber with
    | None =>
        ApiResponse.mk false
          (Some (ValidationResult.mk false (Some invoiceNumber)
                   (Some "Invoice not found") None None))
          None
    | Some (_, invoice) =>
        ApiResponse.ok
          (ValidationResult.mk true (Some invoiceNumber) None
             (Some (Invoice.with_qr_image mockQrImage invoice))
             (Some all_checks_true))
    end.

(** [hash_chain_verify()] *)
Definition hash_chain_verify (s : state)
    : ApiResponse.t ChainVerification.t :=
  ApiResponse.ok
    (ChainVerification.mk true (N.of_nat (length (sampleInvoices s)))
       None None).

(** *** The other methods of [mockApi] that read or write the state *)

Definition set_mockSettings (st : Settings.t) (s : state) : state :=
  mkState (sampleProducts s) (sampleInvoices s) st (invoiceCounter s).

(** The invoice number that [invoices_create] composes from the counter. *)
Definition invoice_number_of (counter : N) : string :=
  "INV-2024-" +:+ padStart 4 "0" (String_of_N counter).

(** [products_get_all()] *)
Definition products_get_all (s : state) : ApiResponse.t (list Product.t) :=
  ApiResponse.ok (List.filter Product.is_active (sampleProducts s)).

(** [products_get_by_barcode(barcode)]: the first product with the
    barcode, whatever its status. *)
Definition products_get_by_barcode (s : state) (barcode : string)
    : ApiResponse.t Product.t :=
  match List.find (fun p => bool_decide (Product.barcode p = Some barcode))
          (sampleProducts s) with
  | Some product => ApiResponse.ok product
  | None => ApiResponse.fail "Product not found"
  end.

(** [sampleProducts.findIndex((p) => p.id === id)], with the product. *)
Definition find_product_index (ps : list Product.t) (id : string)
    : option (nat * Product.t) :=
  list_find (fun p => Product.id p = id) ps.

(** [products_update(data)]: [data] is a complete [Product], so the
    merge [{ ...sampleProducts[index], ...data }] is [data]. *)
Definition products_update (s : state) (data : Product.t)
    : state * ApiResponse.t Product.t :=
  match find_product_index (sampleProducts s) (Product.id data) with
  | Some (index, _) =>
      (set_sampleProducts (<[index := data]> (sampleProducts s)) s,
       ApiResponse.ok data)
  | None => (s, ApiResponse.fail "Product not found")
  end.

(** [products_delete(productId)]: the product stays in the array and is
    marked inactive. *)
Definition products_delete (s : state) (productId : string)
    : state * ApiResponse.t unit :=
  match find_product_index (sampleProducts s) productId with
  | Some (index, product) =>
      (set_sampleProducts
         (<[index := Product.set_status Product.inactive product]>
            (sampleProducts s)) s,
       ApiResponse.mk true None None)
  | None => (s, ApiResponse.fail "Product not found")
  end.

(** [Partial<Settings>]: [None] is a key that the object does not have. *)
Module PartialSettings.
Record t := mk {
  language : option string;
  store_name : option string;
  seller_id : option string;
  printer_enabled : option bool;
  smtp_host : option string;
  smtp_port : option N;
  smtp_username : option string;
  smtp_password : option string;
  smtp_use_tls : option bool;
  keyboard_layout : option string;
  currency_symbol : option string;
  default_vat_rate : option float
}.
End PartialSettings.

(** [{ ...base, ...updates }] *)
Definition merge_settings (base : Settings.t) (updates : PartialSettings.t)
    : Settings.t :=
  Settings.mk
    (default (Settings.language base) (PartialSettings.language updates))
    (default (Settings.store_name base) (PartialSettings.store_name updates))
    (default (Settings.seller_id base) (PartialSettings.seller_id updates))
    (default (Settings.printer_enabled base)
       (PartialSettings.printer_enabled updates))
    (default (Settings.smtp_host base) (PartialSettings.smtp_host updates))
    (default (Settings.smtp_port base) (PartialSettings.smtp_port updates))
    (default (Settings.smtp_username base)
       (PartialSettings.smtp_username updates))
    (default (Settings.smtp_password base)
       (PartialSettings.smtp_password updates))
    (default (Settings.smtp_use_tls base)
       (PartialSettings.smtp_use_tls updates))
    (default (Settings.keyboard_layout base)
       (PartialSettings.keyboard_layout updates))
    (default (Settings.currency_symbol base)
       (PartialSettings.currency_symbol updates))
    (default (Settings.default_vat_rate base)
       (PartialSettings.default_vat_rate updates)).


(** [settings_update_many(settings)] *)
Definition settings_update_many (s : state) (updates : PartialSettings.t)
    : state * ApiResponse.t unit :=
  (set_mockSettings (merge_settings (mockSettings s) updates) s,
   ApiResponse.mk true None None).

(** [email_test_connection()] *)
Definition email_test_connection (s : state) : ApiResponse.t unit :=
  match Settings.smtp_host (mockSettings s) with
  | EmptyString => ApiResponse.fail "SMTP not configured"
  | _ => ApiResponse.mk true None None
  end.

(** The states of the module: the one it is loaded in, and what the
    methods that write a module variable make of a reachable state.
    [settings_update(key, value)] assigns one property of [mockSettings]
    under a key computed at run time; it is covered by the last rule,
    which lets [mockSettings] become any settings record and leaves the
    other variables alone. *)
Inductive reachable : state -> Prop :=
| reach_initial : reachable initial_state
| reach_products_create s data :
    reachable s -> reachable (fst (products_create s data))
| reach_products_update s data :
    reachable s -> reachable (fst (products_update s data))
| reach_products_delete s productId :
    reachable s -> reachable (fst (products_delete s productId))
| reach_invoices_create s clk items paymentMethod customerEmail :
    reachable s ->
    reachable (fst (invoices_create s clk items paymentMethod customerEmail))
| reach_invoices_process_return s invoiceNumber itemIds :
    reachable s ->
    reachable (fst (invoices_process_return s invoiceNumber itemIds))
| reach_settings_update_many s updates :
    reachable s -> reachable (fst (settings_update_many s updates))
| reach_settings_update s st :
    reachable s -> reachable (set_mockSettings st s).

(** What every reachable store satisfies (proved below): the record ids
    increase strictly in store order and none exceeds the counter; the
    number of a record is the one composed from its id; the lines of a
    record are numbered 1, 2, ... and point back to the record; a record
    is [completed] only with no line returned, [returned] only with all
    lines returned, and a record with lines all of which are returned is
    [returned]. *)
Definition line_ids_ok (inv : Invoice.t) : Prop :=
  InvoiceItem.id <$> Invoice.items inv
  = (fun k => N.of_nat (S k)) <$> seq 0 (length (Invoice.items inv)).

Definition status_ok (inv : Invoice.t) : Prop :=
  (Invoice.status inv = Status.completed ->
   Forall (fun it => InvoiceItem.return_status it = ReturnStatus.none)
     (Invoice.items inv))
  /\ (Invoice.status inv = Status.returned ->
      every_returned (Invoice.items inv) = true)
  /\ (Invoice.items inv <> [] ->
      every_returned (Invoice.items inv) = true ->
      Invoice.status inv = Status.returned).

Definition invoice_ok (counter : N) (inv : Invoice.t) : Prop :=
  (Invoice.id inv <= counter)%N
  /\ Invoice.invoice_number inv = invoice_number_of (Invoice.id inv)
  /\ line_ids_ok inv
  /\ Forall (fun it => InvoiceItem.invoice_id it = Invoice.id inv)
       (Invoice.items inv)
  /\ status_ok inv.

Definition store_ok (s : state) : Prop :=
  Forall (invoice_ok (invoiceCounter s)) (sampleInvoices s)
  /\ StronglySorted N.lt (Invoice.id <$> sampleInvoices s).

(** The line that the loop of [invoices_create] pushes for a request:
    the product is the first one of the catalogue with the requested id,
    and the line takes its id, name, price and VAT rate, the requested
    quantity and their unrounded product; it is not returned. *)
Definition line_for (ps : list Product.t) (invoice_id : N)
    (req : ItemRequest.t) (it : InvoiceItem.t) : Prop :=
  exists product,
    find_product ps (ItemRequest.product_id req) = Some product
    /\ it = InvoiceItem.mk (InvoiceItem.id it) invoice_id
              (Product.id product) (Product.name product)
              (ItemRequest.quantity req) (Product.price product)
              (Product.vat_rate product)
              (PrimFloat.mul (Product.price product)
                 (ItemRequest.quantity req))
              ReturnStatus.none.

(** The request resolves: some product of the catalogue has its id. *)
Definition resolves (ps : list Product.t) (req : ItemRequest.t) : Prop :=
  is_Some (find_product ps (ItemRequest.product_id req)).

End Mock.

(** ** The cart store (frontend/src/stores/cartStore.ts) *)

Module CartStore.

(** The store's only piece of state is [items]; every action is the
    function that [set] applies to it. *)
Definition pid (item : CartItem.t) : string :=
  Product.id (CartItem.product item).

(** [addItem(product, quantity = 1)]: [findIndex] gives the first entry
    with the product's id; the entry there is rebuilt with its own
    product and the summed quantity, otherwise the new entry is appended. *)
Definition addItem (product : Product.t) (quantity : option float)
    (items : list CartItem.t) : list CartItem.t :=
  let quantity := default 1%float quantity in
  match list_find (fun item => pid item = Product.id product) items with
  | Some (existingIndex, existing) =>
      <[existingIndex :=
          CartItem.mk (CartItem.product existing)
            (PrimFloat.add (CartItem.quantity existing) quantity)]> items
  | None => items ++ [CartItem.mk product quantity]
  end.

(** [removeItem(productId)] *)
Definition removeItem (productId : string) (items : list CartItem.t)
    : list CartItem.t :=
  filter (fun item => pid item ≠ productId) items.

(** [updateQuantity(productId, quantity)]; [quantity <= 0] is the
    binary64 comparison (false on NaN). *)
Definition updateQuantity (productId : string) (quantity : float)
    (items : list CartItem.t) : list CartItem.t :=
  if PrimFloat.leb quantity 0%float then removeItem productId items
  else
    (fun item =>
       if decide (pid item = productId)
       then CartItem.mk (CartItem.product item) quantity
       else item) <$> items.

(** [clearCart()] *)
Definition clearCart (items : list CartItem.t) : list CartItem.t := [].

(** [getItemCount()] *)
Definition getItemCount (items : list CartItem.t) : float :=
  fold_left (fun sum item => PrimFloat.add sum (CartItem.quantity item))
    items 0%float.

(** The cart states that the store can be in: the initial [items: []]
    and whatever the four actions make of a reachable cart. *)
Inductive reachable : list CartItem.t -> Prop :=
| reach_init : reachable []
| reach_addItem product quantity items :
    reachable items -> reachable (addItem product quantity items)
| reach_removeItem productId items :
    reachable items -> reachable (removeItem productId items)
| reach_updateQuantity productId quantity items :
    reachable items -> reachable (updateQuantity productId quantity items)
| reach_clearCart items :
    reachable items -> reachable (clearCart items).

(** No two entries of the cart have the same product id. *)
Definition unique_products (items : list CartItem.t) : Prop :=
  NoDup (pid <$> items).

(** [getSubtotal()] *)
Definition getSubtotal (items : list CartItem.t) : float :=
  fold_left
    (fun sum item =>
       PrimFloat.add sum
         (PrimFloat.mul (Product.price (CartItem.product item))
            (CartItem.quantity item)))
    items 0%float.

(** [getVatAmount()] *)
Definition getVatAmount (items : list CartItem.t) : float :=
  fold_left
    (fun sum item =>
       let lineTotal :=
         PrimFloat.mul (Product.price (CartItem.product item))
           (CartItem.quantity item) in
       let vatAmount :=
         PrimFloat.mul lineTotal
           (PrimFloat.div (Product.vat_rate (CartItem.product item))
              100%float) in
       PrimFloat.add sum vatAmount)
    items 0%float.

(** [getTotal()] *)
Definition getTotal (items : list CartItem.t) : float :=
  PrimFloat.add (getSubtotal items) (getVatAmount items).

End CartStore.

(** ** The return selection of the scan page (frontend/src/pages/ScanPage.tsx) *)

Module ScanPage.

(** [handleToggleItem(itemId)], as the function given to
    [setSelectedItems]. *)
Definition handleToggleItem (itemId : N) (prev : list N) : list N :=
  if JS.includes prev itemId
  then List.filter (fun id => negb (N.eqb id itemId)) prev
  else prev ++ [itemId].

(** [getRefundAmount()] over the page's [invoice] and [selectedItems]. *)
Definition getRefundAmount (invoice : option Invoice.t)
    (selectedItems : list N) : float :=
  match invoice with
  | None => 0%float
  | Some invoice =>
      fold_left
        (fun sum item => PrimFloat.add sum (InvoiceItem.line_total item))
        (List.filter
           (fun item => JS.includes selectedItems (InvoiceItem.id item))
           (Invoice.items invoice))
        0%float
  end.

End ScanPage.

(** ** The checkout of the invoice page (InvoicePage, [handleCheckout]) *)

Module InvoicePage.

(** The page state that [handleCheckout] writes. *)
Record page := mkPage {
  isCheckingOut : bool;
  showCheckout : bool;
  completedInvoice : option Invoice.t
}.

(** [cartItems.map((item) => ({ product_id: item.product.id,
    quantity: item.quantity }))] *)
Definition request_of (item : CartItem.t) : Mock.ItemRequest.t :=
  Mock.ItemRequest.mk (Product.id (CartItem.product item))
    (CartItem.quantity item).

(** [handleCheckout(paymentMethod)] against the development API: nothing
    happens on an empty cart; otherwise the invoice is requested without
    a customer email, and on success it is kept, the cart is cleared and
    the dialog closed.  [isCheckingOut] is set during the call and reset
    at its end. *)
Definition handleCheckout (s : Mock.state) (clk : Mock.clock)
    (cartItems : list CartItem.t) (pg : page) (paymentMethod : string)
    : Mock.state * list CartItem.t * page :=
  match cartItems with
  | [] => (s, cartItems, pg)
  | _ =>
      let items := request_of <$> cartItems in
      let '(s', response) :=
        Mock.invoices_create s clk items paymentMethod None in
      match ApiResponse.success response, ApiResponse.data response with
      | true, Some invoice =>
          (s', CartStore.clearCart cartItems,
           mkPage false false (Some invoice))
      | _, _ =>
          (s', cartItems,
           mkPage false (showCheckout pg) (completedInvoice pg))
      end
  end.

End InvoicePage.

(** ** Frames, raw sums and the concrete runs used below *)

Module Scenario.

Import Mock.

(** Two lines that differ at most in [return_status], and then only when
    the line is one of the requested ones. *)
Definition line_frame (itemIds : list N) (a b : InvoiceItem.t) : Prop :=
  if JS.includes itemIds (InvoiceItem.id a)
  then b = InvoiceItem.set_return_status (InvoiceItem.return_status b) a
  else b = a.

(** Two records that differ at most in [status] and in the
    [return_status] of requested lines: every other field of [b],
    [current_hash] and [previous_hash] among them, is the field of [a]. *)
Definition invoice_frame (itemIds : list N) (a b : Invoice.t) : Prop :=
  b = Invoice.set_items_status (Invoice.items b) (Invoice.status b) a
  /\ Forall2 (line_frame itemIds) (Invoice.items a) (Invoice.items b).

(** The sums that [invoices_create] accumulates, read off the lines. *)
Definition raw_subtotal (its : list InvoiceItem.t) : float :=
  fold_left (fun acc it => PrimFloat.add acc (InvoiceItem.line_total it))
    its PrimFloat.zero.

Definition raw_vat (its : list InvoiceItem.t) : float :=
  fold_left
    (fun acc it =>
       PrimFloat.add acc
         (PrimFloat.mul (InvoiceItem.line_total it)
            (PrimFloat.div (InvoiceItem.vat_rate it) 100%float)))
    its PrimFloat.zero.

(** The response of [qr_validate] to a payload it does not accept. *)
Definition invalid_format : ApiResponse.t ValidationResult.t :=
  ApiResponse.mk false
    (Some (ValidationResult.mk false None (Some "Invalid QR code format")
             None None))
    None.

(** A store with no record yet (the mock itself starts from one sample
    record; the products and settings are the mock's). *)
Definition empty_store : state :=
  mkState sampleProducts0 [] mockSettings0 0.

(** Two runs of the clock that agree on [new Date()] and differ by one
    millisecond at the [Date.now()] read for the hash. *)
Definition clk1 : clock :=
  mkClock "2024-02-01T10:00:00.000Z" 1706781600000 1706781600000.
Definition clk2 : clock :=
  mkClock "2024-02-01T10:00:00.000Z" 1706781600001 1706781600001.

(** [{P1, qty: 2}] with P1 the 2.50 product at 21% VAT, and one unit of it. *)
Definition two_espressos : list ItemRequest.t :=
  [ ItemRequest.mk "PROD001" 2%float ].
Definition one_espresso : list ItemRequest.t :=
  [ ItemRequest.mk "PROD001" 1%float ].

(** The store after two sales on top of the sample record. *)
Definition chain3 : state :=
  fst (invoices_create
         (fst (invoices_create initial_state clk1 two_espressos "cash" None))
         clk2 one_espresso "card" None).

(** A persisted record rewritten behind the API's back: the record at
    position [k] gets the total [v]. *)
Definition set_total (v : float) (i : Invoice.t) : Invoice.t :=
  Invoice.mk (Invoice.id i) (Invoice.invoice_number i) (Invoice.seller_id i)
    (Invoice.store_name i) (Invoice.subtotal i) (Invoice.vat_amount i) v
    (Invoice.payment_method i) (Invoice.customer_email i)
    (Invoice.previous_hash i) (Invoice.current_hash i) (Invoice.qr_data i)
    (Invoice.qr_image i) (Invoice.status i) (Invoice.created_at i)
    (Invoice.items i) (Invoice.currency_symbol i).

Definition tamper_total (k : nat) (v : float) (s : state) : state :=
  set_sampleInvoices (alter (set_total v) k (sampleInvoices s)) s.

(** The store [chain3] with the total of its second record, 6.05,
    rewritten to 999.99. *)
#[warnings="-inexact-float"]
Definition tampered : state := tamper_total 1 999.99%float chain3.



(** The cart after one click on a product. *)
Definition espresso : Product.t :=
  Product.mk "PROD001" "Espresso" "Single shot espresso"
    2.5%float 21%float (Some "1234567890123") 100%float Product.active.

Definition cart1 : list CartItem.t := CartStore.addItem espresso None [].

(** The cart after a second product was added and the first product was
    then added again, two units at once. *)
Definition croissant : Product.t :=
  Product.mk "PROD004" "Croissant" "Fresh butter croissant"
    2%float 21%float (Some "1234567890126") 50%float Product.active.

Definition cart2 : list CartItem.t :=
  CartStore.addItem espresso (Some 2%float)
    (CartStore.addItem croissant None cart1).

End Scenario.

(** * The JavaScript built-ins on examples *)

Section JSFacts.

(** [split] cuts at every separator: one field more than separators. *)
Lemma split_length (sep : ascii) (s : string) :
  length (JS.split sep s) = S (JS.count_char sep s).
Proof.
  induction s as [|c rest IH]; simpl; [reflexivity|].
  destruct (Ascii.eqb c sep); simpl.
  - by rewrite IH.
  - destruct (JS.split sep rest) as [|h t]; simpl in *; [discriminate|done].
Qed.

Example split_keeps_empty_fields :
  JS.split "|" "a||b|" = ["a"; ""; "b"; ""] /\ JS.split "|" "" = [""].
Proof. split; reflexivity. Qed.

Example invoice_number_padding :
  "INV-2024-" +:+ JS.padStart 4 "0" (JS.String_of_N 2) = "INV-2024-0002"
  /\ "INV-2024-" +:+ JS.padStart 4 "0" (JS.String_of_N 12345)
     = "INV-2024-12345".
Proof. split; reflexivity. Qed.

Example Math_round_ties_go_up :
  map JS.Math_round
    [2.5%float; (-2.5)%float; 0.5%float; (-0.5)%float; 12.5%float;
     0.25%float; 7%float]
  = [3%float; (-2)%float; 1%float; (-0)%float; 13%float; 0%float; 7%float].
Proof. vm_compute. reflexivity. Qed.

#[warnings="-inexact-float"]
Example toFixed2_rounds_the_exact_value :
  map JS.toFixed2
    [12.1%float; 0.125%float; 1.005%float; 2.5%float; (-0.001)%float;
     1234567.891%float]
  = ["12.10"; "0.13"; "1.00"; "2.50"; "-0.00"; "1234567.89"].
Proof. vm_compute. reflexivity. Qed.

End JSFacts.

(** * Properties of the cart store *)

Section CartStoreFacts.
Import CartStore.

Lemma pids_insert_same (items : list CartItem.t) k existing q :
  items !! k = Some existing ->
  pid <$> <[k := CartItem.mk (CartItem.product existing) q]> items
  = pid <$> items.
Proof.
  intros Hk. rewrite list_fmap_insert. apply list_insert_id.
  rewrite list_lookup_fmap, Hk. reflexivity.
Qed.

Lemma pids_addItem_present product quantity items k existing :
  list_find (fun item => pid item = Product.id product) items
    = Some (k, existing) ->
  pid <$> addItem product quantity items = pid <$> items.
Proof.
  intros Hf. unfold addItem. rewrite Hf.
  apply list_find_Some in Hf as (Hk & _ & _).
  by apply pids_insert_same.
Qed.

Lemma unique_addItem product quantity items :
  unique_products items -> unique_products (addItem product quantity items).
Proof.
  unfold unique_products. intros Hnd.
  destruct (list_find (fun item => pid item = Product.id product) items)
    as [[k existing]|] eqn:Hf.
  - by rewrite (pids_addItem_present _ _ _ _ _ Hf).
  - unfold addItem. rewrite Hf, fmap_app. apply NoDup_app.
    split; [done|]. split; [|apply NoDup_singleton].
    intros x Hx Hin. apply list_elem_of_singleton in Hin. subst x.
    apply list_elem_of_fmap in Hx as (item & Hpid & Hitem).
    apply list_find_None in Hf.
    rewrite Forall_forall in Hf. apply (Hf item Hitem).
    by rewrite <- Hpid.
Qed.

Lemma unique_removeItem productId items :
  unique_products items -> unique_products (removeItem productId items).
Proof.
  unfold unique_products, removeItem. intros Hnd.
  eapply sublist_NoDup; [exact Hnd|].
  apply fmap_sublist, sublist_filter.
Qed.

Lemma pids_updateQuantity_map productId quantity (items : list CartItem.t) :
  pid <$> ((fun item =>
              if decide (pid item = productId)
              then CartItem.mk (CartItem.product item) quantity
              else item) <$> items)
  = pid <$> items.
Proof.
  rewrite <- list_fmap_compose. apply list_fmap_ext.
  intros i item _. simpl. by destruct (decide _).
Qed.

Lemma unique_updateQuantity productId quantity items :
  unique_products items ->
  unique_products (updateQuantity productId quantity items).
Proof.
  unfold updateQuantity. intros Hnd.
  destruct (PrimFloat.leb quantity 0%float).
  - by apply unique_removeItem.
  - unfold unique_products. by rewrite pids_updateQuantity_map.
Qed.

Lemma reachable_unique items : reachable items -> unique_products items.
Proof.
  induction 1.
  - apply NoDup_nil_2.
  - by apply unique_addItem.
  - by apply unique_removeItem.
  - by apply unique_updateQuantity.
  - apply NoDup_nil_2.
Qed.

End CartStoreFacts.

Section CartStoreClaims.
Import CartStore.

(** C10: every cart that the store's actions can reach has at most one
    entry per product id.  For every cart, reachable or not: [addItem]
    with a product whose id is already in the cart rewrites the first
    entry with that id, adding the quantity to it, and leaves the number
    of entries and every other entry as they were; [addItem] with a
    product whose id is not in the cart appends one entry for it; and
    [addItem], [removeItem], [updateQuantity] and [clearCart] lead from
    a cart with unique product ids to a cart with unique product ids. *)
Theorem C10_cart_unique_products (items : list CartItem.t) :
  (reachable items -> unique_products items)
  /\ (forall product quantity,
        Product.id product ∈ pid <$> items ->
        exists k existing,
          items !! k = Some existing
          /\ pid existing = Product.id product
          /\ (forall j other,
                items !! j = Some other -> j < k ->
                pid other <> Product.id product)
          /\ addItem product quantity items
             = <[k := CartItem.mk (CartItem.product existing)
                        (PrimFloat.add (CartItem.quantity existing)
                           (default 1%float quantity))]> items
          /\ length (addItem product quantity items) = length items
          /\ pid <$> addItem product quantity items = pid <$> items)
  /\ (forall product quantity,
        Product.id product ∉ pid <$> items ->
        addItem product quantity items
        = items ++ [CartItem.mk product (default 1%float quantity)])
  /\ (unique_products items ->
      (forall product quantity,
         unique_products (addItem product quantity items))
      /\ (forall productId, unique_products (removeItem productId items))
      /\ (forall productId quantity,
            unique_products (updateQuantity productId quantity items)))
  /\ unique_products (clearCart items).
Proof.
  split; [apply reachable_unique|]. split; [|split; [|split]].
  - intros product quantity Hin.
    apply list_elem_of_fmap in Hin as (item & Hpid & Hitem).
    destruct (list_find_elem_of
                (fun item => pid item = Product.id product) items item)
      as [[k existing] Hf]; [done|done|].
    exists k, existing.
    rewrite (pids_addItem_present _ quantity _ _ _ Hf).
    unfold addItem. rewrite Hf.
    apply list_find_Some in Hf as (Hk & Hp & Hfirst).
    repeat split; [done|done|exact Hfirst|]. apply length_insert.
  - intros product quantity Hnot. unfold addItem.
    destruct (list_find (fun item => pid item = Product.id product) items)
      as [[k existing]|] eqn:Hf; [|reflexivity].
    apply list_find_Some in Hf as (Hk & Hp & _). destruct Hnot.
    rewrite <- Hp. apply list_elem_of_fmap_2.
    apply list_elem_of_lookup. by exists k.
  - intros Hnd. split; [|split].
    + intros. by apply unique_addItem.
    + intros. by apply unique_removeItem.
    + intros. by apply unique_updateQuantity.
  - apply NoDup_nil_2.
Qed.

(** The cart after espresso, croissant and two more espressos: two
    entries, the espresso entry first with quantity 1 + 2. *)
Lemma C10_cart_unique_products_witness :
  reachable Scenario.cart2
  /\ Scenario.cart2
     = [CartItem.mk Scenario.espresso 3%float;
        CartItem.mk Scenario.croissant 1%float]
  /\ unique_products Scenario.cart2
  /\ Scenario.cart2
     = <[0%nat := CartItem.mk Scenario.espresso
                   (PrimFloat.add 1%float 2%float)]>
         (addItem Scenario.croissant None Scenario.cart1).
Proof.
  assert (Hr : reachable Scenario.cart2).
  { unfold Scenario.cart2, Scenario.cart1.
    apply reach_addItem, reach_addItem, reach_addItem, reach_init. }
  split; [exact Hr|]. split; [reflexivity|].
  split; [exact (proj1 (C10_cart_unique_products Scenario.cart2) Hr)|].
  reflexivity.
Defined.

End CartStoreClaims.

(** * Properties of the development API *)

Section ReturnFacts.
Import Mock Scenario.

Lemma find_invoice_Some invs n k inv :
  find_invoice invs n = Some (k, inv) ->
  invs !! k = Some inv /\ Invoice.invoice_number inv = n.
Proof.
  unfold find_invoice. intros Hf.
  apply list_find_Some in Hf as (Hk & Hn & _). by split.
Qed.

(** The record that [find] returns is found again, at the same place,
    after it was mutated in a way that keeps its number. *)
Lemma find_invoice_insert invs n k inv inv' :
  find_invoice invs n = Some (k, inv) ->
  Invoice.invoice_number inv' = n ->
  find_invoice (<[k := inv']> invs) n = Some (k, inv').
Proof.
  unfold find_invoice. intros Hf Hn.
  apply list_find_Some in Hf as (Hk & _ & Hlt).
  apply list_find_Some. split; [|split; [done|]].
  - apply list_lookup_insert_eq. by eapply lookup_lt_Some.
  - intros j y Hj Hjk. rewrite list_lookup_insert_ne in Hj by lia.
    by eapply Hlt.
Qed.

Lemma line_frame_refl ids it : line_frame ids it it.
Proof. unfold line_frame. destruct (JS.includes _ _); by destruct it. Qed.

Lemma invoice_frame_refl ids inv : invoice_frame ids inv inv.
Proof.
  split; [by destruct inv|].
  apply Forall2_same_length_lookup_2; [done|].
  intros i a b Ha Hb. rewrite Ha in Hb. injection Hb as <-.
  apply line_frame_refl.
Qed.

Lemma mark_returned_frame ids its :
  Forall2 (line_frame ids) its (mark_returned ids its).
Proof.
  unfold mark_returned. induction its as [|it its IH]; simpl.
  - constructor.
  - constructor; [|exact IH]. unfold line_frame.
    destruct (JS.includes ids (InvoiceItem.id it)) eqn:Hin.
    + reflexivity.
    + reflexivity.
Qed.

Lemma refund_of_mark_returned ids ids' its :
  refund_of ids (mark_returned ids' its) = refund_of ids its.
Proof.
  unfold refund_of, mark_returned. generalize PrimFloat.zero.
  induction its as [|it its IH]; intros acc; simpl; [done|].
  rewrite IH. by destruct (JS.includes ids' (InvoiceItem.id it)).
Qed.

(** What [invoices_process_return] does once [find] has a record. *)
Lemma process_return_found s n ids k inv :
  find_invoice (sampleInvoices s) n = Some (k, inv) ->
  invoices_process_return s n ids
  = (set_sampleInvoices
       (<[k := Invoice.set_items_status
                 (mark_returned ids (Invoice.items inv))
                 (if every_returned (mark_returned ids (Invoice.items inv))
                  then Status.returned else Status.partial_return)
                 inv]> (sampleInvoices s)) s,
     ApiResponse.ok
       (ReturnResult.mk n (refund_of ids (Invoice.items inv))
          (if every_returned (mark_returned ids (Invoice.items inv))
           then Status.returned else Status.partial_return))).
Proof. intros Hf. unfold invoices_process_return. by rewrite Hf. Qed.

End ReturnFacts.

Section ReturnClaims.
Import Mock Scenario.

(** C9: for every store, invoice number and list of line ids, a call of
    [invoices_process_return], successful or failed, leaves the products,
    the settings and the counter as they were, keeps the records in place,
    and changes in a record nothing but [status] and the [return_status]
    of requested lines: [current_hash], [previous_hash] and every other
    field are the ones from before the call; records with another
    invoice number are untouched, and a failed call changes nothing at
    all. *)
Theorem C9_process_return_frame (s : state) (invoiceNumber : string)
    (itemIds : list N) :
  let s' := fst (invoices_process_return s invoiceNumber itemIds) in
  let r := snd (invoices_process_return s invoiceNumber itemIds) in
  sampleProducts s' = sampleProducts s
  /\ mockSettings s' = mockSettings s
  /\ invoiceCounter s' = invoiceCounter s
  /\ Forall2 (invoice_frame itemIds) (sampleInvoices s) (sampleInvoices s')
  /\ Forall2 (fun a b =>
                Invoice.current_hash b = Invoice.current_hash a
                /\ Invoice.previous_hash b = Invoice.previous_hash a)
       (sampleInvoices s) (sampleInvoices s')
  /\ (forall i a,
        sampleInvoices s !! i = Some a ->
        Invoice.invoice_number a <> invoiceNumber ->
        sampleInvoices s' !! i = Some a)
  /\ (ApiResponse.success r = false -> s' = s).
Proof.
  unfold invoices_process_return.
  destruct (find_invoice (sampleInvoices s) invoiceNumber)
    as [[k inv]|] eqn:Hf; simpl.
  - apply find_invoice_Some in Hf as [Hk Hnum].
    assert (Hfr : Forall2 (invoice_frame itemIds) (sampleInvoices s)
              (<[k := Invoice.set_items_status
                        (mark_returned itemIds (Invoice.items inv))
                        (if every_returned
                              (mark_returned itemIds (Invoice.items inv))
                         then Status.returned else Status.partial_return)
                        inv]> (sampleInvoices s))).
    { rewrite <- (list_insert_id (sampleInvoices s) k inv Hk) at 1.
      apply Forall2_insert.
      - apply Forall2_same_length_lookup_2; [done|].
        intros i a b Ha Hb. rewrite Ha in Hb. injection Hb as <-.
        apply invoice_frame_refl.
      - split; [reflexivity|]. simpl. apply mark_returned_frame. }
    repeat split; try done.
    + eapply Forall2_impl; [exact Hfr|].
      intros a b [-> _]. by destruct a.
    + intros i a Hi Hne. rewrite list_lookup_insert_ne; [done|].
      intros <-. rewrite Hk in Hi. injection Hi as <-. done.
  - repeat split; try done.
    all: apply Forall2_same_length_lookup_2; [done|].
    all: intros i a b Ha Hb; rewrite Ha in Hb; injection Hb as <-.
    + apply invoice_frame_refl.
    + done.
Qed.

(** C4 (as the code has it): when the invoice exists, a second call of
    [invoices_process_return] on it succeeds whatever lines the first
    call returned; no error is reported for lines that are already
    returned, its [refund_amount] is the sum of [line_total] over all the
    lines it names, the already returned ones included, and the lines of
    both calls end up returned. *)
Theorem C4_second_return_is_accepted (s : state) (invoiceNumber : string)
    (ids1 ids2 : list N) (k : nat) (inv : Invoice.t) :
  find_invoice (sampleInvoices s) invoiceNumber = Some (k, inv) ->
  let s1 := fst (invoices_process_return s invoiceNumber ids1) in
  let s2 := fst (invoices_process_return s1 invoiceNumber ids2) in
  let r2 := snd (invoices_process_return s1 invoiceNumber ids2) in
  ApiResponse.success r2 = true
  /\ ApiResponse.error r2 = None
  /\ ReturnResult.refund_amount <$> ApiResponse.data r2
     = Some (refund_of ids2 (Invoice.items inv))
  /\ Invoice.items <$> sampleInvoices s2 !! k
     = Some (mark_returned ids2 (mark_returned ids1 (Invoice.items inv))).
Proof.
  intros Hf. pose proof (find_invoice_Some _ _ _ _ Hf) as [Hk Hn].
  simpl. rewrite (process_return_found _ _ ids1 _ _ Hf). simpl.
  erewrite process_return_found; simpl;
    [|eapply find_invoice_insert; [exact Hf|exact Hn]].
  unfold Invoice.set_items_status; simpl.
  repeat split.
  - by rewrite refund_of_mark_returned.
  - rewrite list_lookup_insert_eq; [done|].
    rewrite length_insert. by eapply lookup_lt_Some.
Qed.

Lemma C4_second_return_is_accepted_witness :
  find_invoice (sampleInvoices initial_state) "INV-2024-0001"
    = Some (0%nat, sampleInvoice1)
  /\ ApiResponse.success
       (snd (invoices_process_return
               (fst (invoices_process_return initial_state "INV-2024-0001"
                       [1%N]))
               "INV-2024-0001" [1%N; 2%N])) = true.
Proof.
  split; [reflexivity|].
  exact (proj1 (C4_second_return_is_accepted initial_state "INV-2024-0001"
                  [1%N] [1%N; 2%N] 0%nat _ eq_refl)).
Defined.

(** C4 (as stated) fails: on the sample store, line 1 of INV-2024-0001 is
    returned by a first call and requested again, with line 2, by a
    second call; the second call succeeds and refunds line 1 a second
    time (5 + 4 = 9) instead of failing. *)
Lemma C4_double_return_counterexample :
  let s1 := fst (invoices_process_return initial_state "INV-2024-0001"
                   [1%N]) in
  snd (invoices_process_return initial_state "INV-2024-0001" [1%N])
    = ApiResponse.ok
        (ReturnResult.mk "INV-2024-0001" 5%float Status.partial_return)
  /\ snd (invoices_process_return s1 "INV-2024-0001" [1%N; 2%N])
     = ApiResponse.ok
         (ReturnResult.mk "INV-2024-0001" 9%float Status.returned)
  /\ ~ (ApiResponse.success
          (snd (invoices_process_return s1 "INV-2024-0001" [1%N; 2%N]))
        = false).
Proof. vm_compute. repeat split; discriminate. Qed.

(** C7: on the sample store, a return request for INV-2024-0001 that
    names no line of the invoice (line id 99) is accepted with a refund
    of 0 and sets the status to [partial_return], although no line of the
    invoice is returned: the status is not the one that the lines
    determine. *)
Lemma C7_return_of_no_line_sets_partial_return :
  let s' := fst (invoices_process_return initial_state "INV-2024-0001"
                   [99%N]) in
  snd (invoices_process_return initial_state "INV-2024-0001" [99%N])
    = ApiResponse.ok
        (ReturnResult.mk "INV-2024-0001" 0%float Status.partial_return)
  /\ (Invoice.status <$> sampleInvoices s' !! 0%nat)
     = Some Status.partial_return
  /\ (map InvoiceItem.return_status <$>
        (Invoice.items <$> sampleInvoices s' !! 0%nat))
     = Some [ReturnStatus.none; ReturnStatus.none].
Proof. vm_compute. repeat split. Qed.

End ReturnClaims.

Section CreateFacts.
Import Mock Scenario.

(** The loop appends one line per request to [invoiceItems]; each new
    line is unreturned and carries the unrounded product of price and
    quantity, and the two accumulators grow by the sums of the new lines. *)
Lemma create_loop_inr ps invoice_id items :
  forall subtotal vatTotal invoiceItems subtotal' vatTotal' invoiceItems',
  create_loop ps invoice_id items subtotal vatTotal invoiceItems
    = inr (subtotal', vatTotal', invoiceItems') ->
  exists new,
    invoiceItems' = invoiceItems ++ new
    /\ length new = length items
    /\ Forall (fun it =>
                 InvoiceItem.line_total it
                 = PrimFloat.mul (InvoiceItem.unit_price it)
                     (InvoiceItem.quantity it)
                 /\ InvoiceItem.return_status it = ReturnStatus.none) new
    /\ subtotal'
       = fold_left (fun acc it =>
                      PrimFloat.add acc (InvoiceItem.line_total it))
           new subtotal
    /\ vatTotal'
       = fold_left
           (fun acc it =>
              PrimFloat.add acc
                (PrimFloat.mul (InvoiceItem.line_total it)
                   (PrimFloat.div (InvoiceItem.vat_rate it) 100%float)))
           new vatTotal.
Proof.
  induction items as [|item rest IH]; intros sub vat acc sub' vat' acc' H.
  - simpl in H. injection H as <- <- <-. exists [].
    rewrite app_nil_r. repeat split. constructor.
  - simpl in H.
    destruct (find_product ps (ItemRequest.product_id item))
      as [product|]; [|discriminate].
    apply IH in H as (new & -> & Hlen & Hall & -> & ->).
    eexists (_ :: new). rewrite <- app_assoc. simpl.
    repeat split; [by rewrite Hlen|].
    constructor; [by split|exact Hall].
Qed.

(** A successful [invoices_create], opened up: the loop came back with
    its three results, and the record is built from them. *)
Lemma invoices_create_ok s clk items pm email inv :
  ApiResponse.data (snd (invoices_create s clk items pm email)) = Some inv ->
  exists subtotal vatTotal its,
    create_loop (sampleProducts s) (invoiceCounter s + 1)%N items
      PrimFloat.zero PrimFloat.zero [] = inr (subtotal, vatTotal, its)
    /\ Invoice.items inv = its
    /\ Invoice.subtotal inv = round_cents subtotal
    /\ Invoice.vat_amount inv = round_cents vatTotal
    /\ Invoice.total inv = round_cents (PrimFloat.add subtotal vatTotal)
    /\ Invoice.status inv = Status.completed
    /\ Invoice.previous_hash inv = None
    /\ Invoice.current_hash inv = "mock" +:+ JS.toString16 (now_hash clk)
    /\ Invoice.created_at inv = toISOString clk
    /\ sampleInvoices (fst (invoices_create s clk items pm email))
       = sampleInvoices s ++ [inv].
Proof.
  unfold invoices_create.
  destruct (create_loop _ _ _ _ _ _) as [err|[[subtotal vatTotal] its]];
    simpl; [discriminate|].
  intros [= <-]. exists subtotal, vatTotal, its. by repeat split.
Qed.

End CreateFacts.

Section FloatFacts.


End FloatFacts.

Section CreateClaims.
Import Mock Scenario.

(** C2 (as the code has it): the [current_hash] of every invoice that
    [invoices_create] builds is the text "mock" followed by the lowercase
    hexadecimal digits of the clock reading [Date.now()] taken during the
    call; it is a function of that reading alone, so two calls that read
    the same instant produce the same hash whatever their stores, lines,
    payment methods and timestamps are. *)
Theorem C2_current_hash_is_the_clock (s s' : state) (clk clk' : clock)
    (items items' : list ItemRequest.t) (pm pm' : string)
    (email email' : option string) (inv inv' : Invoice.t) :
  ApiResponse.data (snd (invoices_create s clk items pm email)) = Some inv ->
  ApiResponse.data (snd (invoices_create s' clk' items' pm' email'))
    = Some inv' ->
  Invoice.current_hash inv = "mock" +:+ JS.toString16 (now_hash clk)
  /\ (now_hash clk = now_hash clk' ->
      Invoice.current_hash inv = Invoice.current_hash inv').
Proof.
  intros H H'.
  apply invoices_create_ok in H
    as (? & ? & ? & _ & _ & _ & _ & _ & _ & _ & Hh & _).
  apply invoices_create_ok in H'
    as (? & ? & ? & _ & _ & _ & _ & _ & _ & _ & Hh' & _).
  split; [exact Hh|]. intros Heq. by rewrite Hh, Hh', Heq.
Qed.

Lemma C2_current_hash_is_the_clock_witness :
  Invoice.current_hash
    (default sampleInvoice1
       (ApiResponse.data
          (snd (invoices_create initial_state clk1 two_espressos "cash"
                  None))))
  = "mock18d641c6900".
Proof.
  exact (proj1 (C2_current_hash_is_the_clock initial_state empty_store
                  clk1 clk1 two_espressos one_espresso "cash" "card"
                  None None _ _ eq_refl eq_refl)).
Defined.

(** C2 (as stated) fails: two runs of [invoices_create] on the sample
    store with the same lines, whose clocks agree on the timestamp and
    differ by a millisecond at the later [Date.now()], build records with
    the same invoice number, seller, total, lines, timestamp and (absent)
    previous hash, and with different [current_hash]. *)
Lemma C2_same_fields_different_hash :
  exists a b,
    ApiResponse.data
      (snd (invoices_create initial_state clk1 two_espressos "cash" None))
      = Some a
    /\ ApiResponse.data
         (snd (invoices_create initial_state clk2 two_espressos "cash" None))
       = Some b
    /\ Invoice.invoice_number a = Invoice.invoice_number b
    /\ Invoice.seller_id a = Invoice.seller_id b
    /\ Invoice.total a = Invoice.total b
    /\ Invoice.items a = Invoice.items b
    /\ Invoice.created_at a = Invoice.created_at b
    /\ Invoice.previous_hash a = Invoice.previous_hash b
    /\ Invoice.current_hash a = "mock18d641c6900"
    /\ Invoice.current_hash b = "mock18d641c6901"
    /\ Invoice.current_hash a <> Invoice.current_hash b.
Proof.
  eexists. eexists. split; [vm_compute; reflexivity|].
  split; [vm_compute; reflexivity|].
  vm_compute. repeat split. discriminate.
Qed.

(** C3 (as the code has it): every record that [invoices_create] builds
    is appended at the end of the store and carries no [previous_hash] at
    all, on an empty store and on a store with records alike. *)
Theorem C3_created_record_has_no_previous_hash (s : state) (clk : clock)
    (items : list ItemRequest.t) (pm : string) (email : option string)
    (inv : Invoice.t) :
  ApiResponse.data (snd (invoices_create s clk items pm email)) = Some inv ->
  Invoice.previous_hash inv = None
  /\ sampleInvoices (fst (invoices_create s clk items pm email))
     = sampleInvoices s ++ [inv].
Proof.
  intros H.
  apply invoices_create_ok in H
    as (? & ? & ? & _ & _ & _ & _ & _ & _ & Hp & _ & _ & Happ).
  by split.
Qed.

Lemma C3_created_record_has_no_previous_hash_witness :
  Invoice.previous_hash
    (default sampleInvoice1
       (ApiResponse.data
          (snd (invoices_create empty_store clk1 two_espressos "cash"
                  None))))
  = None.
Proof.
  exact (proj1 (C3_created_record_has_no_previous_hash empty_store clk1
                  two_espressos "cash" None _ eq_refl)).
Defined.

(** C3 (as stated) fails: the record created on the empty store does not
    have the previous hash "GENESIS", and the record created on the
    sample store does not have the [current_hash] of the record before
    it; both have none. *)
Lemma C3_previous_hash_counterexample :
  (Invoice.previous_hash <$>
     ApiResponse.data
       (snd (invoices_create empty_store clk1 two_espressos "cash" None)))
  = Some None
  /\ (Invoice.previous_hash <$>
        ApiResponse.data
          (snd (invoices_create empty_store clk1 two_espressos "cash" None)))
     <> Some (Some "GENESIS")
  /\ (Invoice.previous_hash <$>
        ApiResponse.data
          (snd (invoices_create initial_state clk1 two_espressos "cash"
                  None)))
     = Some None
  /\ (Invoice.previous_hash <$>
        ApiResponse.data
          (snd (invoices_create initial_state clk1 two_espressos "cash"
                  None)))
     <> Some (Some (Invoice.current_hash sampleInvoice1)).
Proof. vm_compute. repeat split; discriminate. Qed.

End CreateClaims.

Section TotalsClaims.
Import Mock Scenario.



End TotalsClaims.

Section VerificationFacts.
Import Mock.

(** The format test reads the number of fields and field 0 only. *)
Lemma bad_format_insert_1 (parts : list string) (v : string) :
  bad_format (<[1%nat := v]> parts) = bad_format parts.
Proof.
  unfold bad_format. rewrite length_insert.
  by rewrite list_lookup_insert_ne by lia.
Qed.

Lemma part_2_insert_1 (parts : list string) (v : string) :
  part 2 (<[1%nat := v]> parts) = part 2 parts.
Proof.
  unfold part. rewrite !nth_lookup.
  by rewrite list_lookup_insert_ne by lia.
Qed.

End VerificationFacts.

Section VerificationClaims.
Import Mock Scenario.

(** C1 (as the code has it): [hash_chain_verify] reads nothing but the
    number of records: on every store it answers [valid: true] with
    [checked_count] the number of records and no failed invoice, and two
    stores with the same number of records, such as a store and the same
    store with a record rewritten, get the same answer. *)
Theorem C1_chain_verdict_counts_records (s s' : state) :
  length (sampleInvoices s') = length (sampleInvoices s) ->
  hash_chain_verify s
  = ApiResponse.ok
      (ChainVerification.mk true (N.of_nat (length (sampleInvoices s)))
         None None)
  /\ hash_chain_verify s' = hash_chain_verify s.
Proof.
  intros Hlen. split; [reflexivity|].
  unfold hash_chain_verify. by rewrite Hlen.
Qed.

Lemma C1_chain_verdict_counts_records_witness :
  hash_chain_verify tampered = hash_chain_verify chain3.
Proof.
  exact (proj2 (C1_chain_verdict_counts_records chain3 tampered eq_refl)).
Defined.

(** C1 (as stated) fails: in the store of three records built by two
    sales on top of the sample record, the total of the second record
    (INV-2024-0002) is rewritten from 6.05 to 999.99; [hash_chain_verify]
    still answers [valid: true] with [checked_count] 3 and names no
    failed invoice. *)
Lemma C1_tampered_record_passes_verification :
  (Invoice.invoice_number <$> sampleInvoices tampered !! 1%nat)
    = Some "INV-2024-0002"
  /\ (JS.toFixed2 ∘ Invoice.total <$> sampleInvoices chain3 !! 1%nat)
     = Some "6.05"
  /\ (JS.toFixed2 ∘ Invoice.total <$> sampleInvoices tampered !! 1%nat)
     = Some "999.99"
  /\ hash_chain_verify tampered
     = ApiResponse.ok (ChainVerification.mk true 3 None None)
  /\ (ChainVerification.valid <$> ApiResponse.data (hash_chain_verify tampered))
     <> Some false.
Proof. vm_compute. repeat split. discriminate. Qed.

(** C5 (as the code has it): [qr_validate] answers "Invalid QR code
    format" exactly for the payloads that do not have 6 pipe-separated
    fields or whose field 0 is not the tag OPENINVOICE; the version in
    field 1 is not looked at (a payload with another text in field 1 gets
    the same answer), and the only answers are the format error, "Invoice
    not found" and a valid verdict: there is no unsupported-version
    error. *)
Theorem C5_format_check_is_count_and_tag (s : state) (qrData : string) :
  (qr_validate s qrData = invalid_format
   <-> ~ (length (JS.split "|" qrData) = 6%nat
          /\ JS.split "|" qrData !! 0%nat = Some "OPENINVOICE"))
  /\ (forall version qrData',
        JS.split "|" qrData' = <[1%nat := version]> (JS.split "|" qrData) ->
        qr_validate s qrData' = qr_validate s qrData)
  /\ (ApiResponse.error (qr_validate s qrData) = None
      /\ exists v,
           ApiResponse.data (qr_validate s qrData) = Some v
           /\ (ValidationResult.error_message v
                 = Some "Invalid QR code format"
               \/ ValidationResult.error_message v = Some "Invoice not found"
               \/ ValidationResult.error_message v = None
                  /\ ValidationResult.valid v = true)).
Proof.
  split; [|split].
  - unfold qr_validate, bad_format, invalid_format.
    destruct (Nat.eqb_spec (length (JS.split "|" qrData)) 6) as [Hlen|Hlen];
      simpl.
    + destruct (bool_decide_reflect
                  (JS.split "|" qrData !! 0%nat = Some "OPENINVOICE"))
        as [Htag|Htag]; simpl.
      * split; [|intros Hn; by destruct Hn].
        destruct (find_invoice _ _) as [[k inv]|]; discriminate.
      * split; [|done]. intros _ [_ ?]. done.
    + split; [|done]. intros _ [? _]. done.
  - intros version qrData' Hparts. unfold qr_validate. rewrite Hparts.
    rewrite bad_format_insert_1, part_2_insert_1. reflexivity.
  - unfold qr_validate.
    destruct (bad_format _); [|destruct (find_invoice _ _) as [[k inv]|]];
      simpl; (split; [reflexivity|]); eexists; (split; [reflexivity|]);
      simpl; auto.
Qed.

(** C5 (as stated) fails: on the sample store the payload
    "OPENINVOICE|v2|INV-2024-0001|12.10|a1b2c3d4|1706745600", whose
    version is v2, is parsed and answered as a valid receipt. *)
Lemma C5_version_v2_is_accepted :
  let r := qr_validate initial_state
             "OPENINVOICE|v2|INV-2024-0001|12.10|a1b2c3d4|1706745600" in
  JS.split "|" "OPENINVOICE|v2|INV-2024-0001|12.10|a1b2c3d4|1706745600"
    = ["OPENINVOICE"; "v2"; "INV-2024-0001"; "12.10"; "a1b2c3d4";
       "1706745600"]
  /\ ApiResponse.success r = true
  /\ ApiResponse.error r = None
  /\ (ValidationResult.valid <$> ApiResponse.data r) = Some true
  /\ (ValidationResult.error_message <$> ApiResponse.data r) = Some None
  /\ (ValidationResult.invoice_number <$> ApiResponse.data r)
     = Some (Some "INV-2024-0001").
Proof. vm_compute. by repeat split. Qed.

(** C6 (as the code has it): for every payload that passes the format
    test and whose field 2 is the number of a stored invoice,
    [qr_validate] answers [valid: true] with the five checks
    ([format_valid], [invoice_exists], [hash_matches], [total_matches],
    [hash_verified]) all reported true and a copy of the record; no hash
    is recomputed and neither the total nor the hash prefix of the
    payload is compared with the record. *)
Theorem C6_found_invoice_is_reported_valid (s : state) (qrData : string)
    (k : nat) (inv : Invoice.t) :
  bad_format (JS.split "|" qrData) = false ->
  find_invoice (sampleInvoices s) (part 2 (JS.split "|" qrData))
    = Some (k, inv) ->
  qr_validate s qrData
  = ApiResponse.ok
      (ValidationResult.mk true (Some (part 2 (JS.split "|" qrData))) None
         (Some (Invoice.with_qr_image mockQrImage inv))
         (Some (Checks.mk (Some true) (Some true) (Some true) (Some true)
                  (Some true)))).
Proof. intros Hfmt Hf. unfold qr_validate. by rewrite Hfmt, Hf. Qed.

Lemma C6_found_invoice_is_reported_valid_witness :
  ValidationResult.valid <$>
    ApiResponse.data
      (qr_validate initial_state
         "OPENINVOICE|v1|INV-2024-0001|999.99|deadbeef|1706745600")
  = Some true.
Proof.
  rewrite (C6_found_invoice_is_reported_valid initial_state
             "OPENINVOICE|v1|INV-2024-0001|999.99|deadbeef|1706745600"
             0%nat sampleInvoice1 eq_refl eq_refl).
  reflexivity.
Defined.

(** C6 (as stated) fails: on the sample store, the payload for
    INV-2024-0001 with the total 999.99 and the hash prefix deadbeef is
    answered [valid: true] with [hash_matches] and [total_matches] true,
    although the stored total reads 12.10 and the stored hash starts with
    a1b2c3d4. *)
Lemma C6_wrong_total_and_hash_pass :
  let payload := "OPENINVOICE|v1|INV-2024-0001|999.99|deadbeef|1706745600" in
  let r := qr_validate initial_state payload in
  part 3 (JS.split "|" payload) = "999.99"
  /\ part 4 (JS.split "|" payload) = "deadbeef"
  /\ JS.toFixed2 (Invoice.total sampleInvoice1) = "12.10"
  /\ JS.slice0 8 (Invoice.current_hash sampleInvoice1) = "a1b2c3d4"
  /\ (ValidationResult.valid <$> ApiResponse.data r) = Some true
  /\ (ValidationResult.checks <$> ApiResponse.data r)
     = Some (Some (Checks.mk (Some true) (Some true) (Some true) (Some true)
                     (Some true)))
  /\ JS.toFixed2 (Invoice.total sampleInvoice1)
     <> part 3 (JS.split "|" payload)
  /\ JS.slice0 8 (Invoice.current_hash sampleInvoice1)
     <> part 4 (JS.split "|" payload).
Proof. vm_compute. repeat split; discriminate. Qed.

End VerificationClaims.

(** * Further properties of the development API *)

Section LoopFacts.
Import Mock.

(** The loop, request by request: the lines it adds mirror the requests
    and are numbered on from the lines already there. *)
Lemma create_loop_lines ps invoice_id items :
  forall subtotal vatTotal invoiceItems subtotal' vatTotal' invoiceItems',
  create_loop ps invoice_id items subtotal vatTotal invoiceItems
    = inr (subtotal', vatTotal', invoiceItems') ->
  exists new,
    invoiceItems' = invoiceItems ++ new
    /\ Forall2 (line_for ps invoice_id) items new
    /\ InvoiceItem.id <$> new
       = (fun k => N.of_nat (S (length invoiceItems + k)))
           <$> seq 0 (length new).
Proof.
  induction items as [|item rest IH]; intros sub vat acc sub' vat' acc' H.
  - simpl in H. injection H as <- <- <-. exists [].
    rewrite app_nil_r. repeat split. constructor.
  - simpl in H.
    destruct (find_product ps (ItemRequest.product_id item))
      as [product|] eqn:Hfind; [|discriminate].
    apply IH in H as (new & -> & Hall & Hids).
    eexists (_ :: new). rewrite <- app_assoc. simpl.
    split; [reflexivity|]. split.
    + constructor; [|exact Hall]. exists product. by split.
    + cbn. f_equal; [lia|].
      change (InvoiceItem.id <$> new
              = (fun k => N.of_nat (S (length acc + k)))
                  <$> seq 1 (length new)).
      rewrite Hids, length_app. simpl.
      rewrite <- fmap_S_seq, <- list_fmap_compose.
      apply list_fmap_ext. intros i k _. simpl. f_equal. lia.
Qed.

(** The loop fails exactly at the first request whose product id is not
    in the catalogue, and names that id. *)
Lemma create_loop_inl ps invoice_id items :
  forall subtotal vatTotal invoiceItems err,
  create_loop ps invoice_id items subtotal vatTotal invoiceItems = inl err
  <-> exists pre req post,
        items = pre ++ req :: post
        /\ Forall (resolves ps) pre
        /\ find_product ps (ItemRequest.product_id req) = None
        /\ err = "Product " +:+ ItemRequest.product_id req +:+ " not found".
Proof.
  induction items as [|item rest IH]; intros sub vat acc err; simpl.
  - split; [discriminate|].
    intros (pre & req & post & Heq & _). by destruct pre.
  - destruct (find_product ps (ItemRequest.product_id item))
      as [product|] eqn:Hfind.
    + rewrite IH. split.
      * intros (pre & req & post & -> & Hpre & Hnone & ->).
        exists (item :: pre), req, post. repeat split; try done.
        constructor; [|done]. unfold resolves. by rewrite Hfind.
      * intros (pre & req & post & Heq & Hpre & Hnone & ->).
        destruct pre as [|item' pre]; simpl in Heq; injection Heq as -> ->.
        -- congruence.
        -- apply Forall_cons in Hpre as [_ Hpre].
           by exists pre, req, post.
    + split.
      * intros [= <-]. exists [], item, rest. repeat split; try done.
      * intros (pre & req & post & Heq & Hpre & Hnone & ->).
        destruct pre as [|item' pre]; simpl in Heq; injection Heq as -> ->.
        -- reflexivity.
        -- apply Forall_cons in Hpre as [[? Hsome] _]. congruence.
Qed.

(** The loop succeeds when every request resolves. *)
Lemma create_loop_resolves ps invoice_id items :
  forall subtotal vatTotal invoiceItems,
  Forall (resolves ps) items ->
  exists r,
    create_loop ps invoice_id items subtotal vatTotal invoiceItems = inr r.
Proof.
  intros sub vat acc Hall.
  destruct (create_loop ps invoice_id items sub vat acc) as [err|r] eqn:H;
    [|by exists r].
  apply create_loop_inl in H as (pre & req & post & -> & _ & Hnone & _).
  apply Forall_app in Hall as [_ Hall].
  apply Forall_cons in Hall as [[? Hsome] _]. congruence.
Qed.

End LoopFacts.

Section NumberFacts.
Import Mock.

(** Reading a decimal text back, leading zeros allowed. *)
Lemma uint_of_string_zeros (k : nat) (s : string) (d : Decimal.uint) :
  DecimalString.NilEmpty.uint_of_string s = Some d ->
  exists d',
    DecimalString.NilEmpty.uint_of_string (JS.repeat_char k "0" +:+ s)
      = Some d'
    /\ N.of_uint d' = N.of_uint d.
Proof.
  intros Hs. induction k as [|k (d' & Hd' & Heq)]; simpl.
  - by exists d.
  - exists (Decimal.D0 d'). rewrite Hd'. by split.
Qed.

Lemma padded_number_inj (k k' : nat) (a b : N) :
  JS.padStart k "0" (JS.String_of_N a) = JS.padStart k' "0" (JS.String_of_N b)
  -> a = b.
Proof.
  unfold JS.padStart, JS.String_of_N. intros Heq.
  destruct (uint_of_string_zeros
              (k - String.length
                     (DecimalString.NilEmpty.string_of_uint (N.to_uint a)))
              _ _ (DecimalString.NilEmpty.usu (N.to_uint a)))
    as (da & Hda & Ha).
  destruct (uint_of_string_zeros
              (k' - String.length
                      (DecimalString.NilEmpty.string_of_uint (N.to_uint b)))
              _ _ (DecimalString.NilEmpty.usu (N.to_uint b)))
    as (db & Hdb & Hb).
  rewrite Heq, Hdb in Hda. injection Hda as <-.
  rewrite !DecimalN.Unsigned.of_to in *. congruence.
Qed.

(** Two counters never compose the same invoice number. *)
Lemma invoice_number_of_inj (a b : N) :
  invoice_number_of a = invoice_number_of b -> a = b.
Proof.
  unfold invoice_number_of. simpl. intros [= Heq].
  by eapply padded_number_inj.
Qed.

End NumberFacts.

Section StoreFacts.
Import Mock.

Lemma invoice_ok_mono (c c' : N) (inv : Invoice.t) :
  (c <= c')%N -> invoice_ok c inv -> invoice_ok c' inv.
Proof. intros Hle (Hid & Hrest). split; [lia|exact Hrest]. Qed.

Lemma store_ok_initial : store_ok initial_state.
Proof.
  split.
  - repeat constructor; try (intros; discriminate).
  - repeat constructor.
Qed.

Lemma every_returned_Forall (its : list InvoiceItem.t) :
  every_returned its = true
  <-> Forall (fun it => InvoiceItem.return_status it = ReturnStatus.returned)
        its.
Proof.
  unfold every_returned. rewrite forallb_forall, Forall_forall.
  split; intros H it Hin.
  - apply list_elem_of_In, H in Hin.
    by destruct (InvoiceItem.return_status it).
  - apply list_elem_of_In, H in Hin. by rewrite Hin.
Qed.

Lemma mark_returned_ids ids its :
  InvoiceItem.id <$> mark_returned ids its = InvoiceItem.id <$> its.
Proof.
  unfold mark_returned. rewrite <- list_fmap_compose.
  apply list_fmap_ext. intros i it _. simpl.
  by destruct (JS.includes ids (InvoiceItem.id it)).
Qed.

Lemma mark_returned_length ids its :
  length (mark_returned ids its) = length its.
Proof. unfold mark_returned. apply length_map. Qed.

(** The record that a return call writes back is as well formed as the
    record it read. *)
Lemma invoice_ok_returned (c : N) (ids : list N) (inv : Invoice.t) :
  invoice_ok c inv ->
  invoice_ok c
    (Invoice.set_items_status (mark_returned ids (Invoice.items inv))
       (if every_returned (mark_returned ids (Invoice.items inv))
        then Status.returned else Status.partial_return) inv).
Proof.
  intros (Hid & Hnum & Hlines & Hback & _).
  split; [exact Hid|]. split; [exact Hnum|]. split; [|split].
  - unfold line_ids_ok in *. simpl.
    by rewrite mark_returned_ids, mark_returned_length.
  - simpl. unfold mark_returned. apply Forall_fmap.
    eapply Forall_impl; [exact Hback|]. intros it Hit. simpl.
    by destruct (JS.includes ids (InvoiceItem.id it)).
  - unfold status_ok. simpl.
    destruct (every_returned (mark_returned ids (Invoice.items inv)));
      repeat split; intros; done.
Qed.

Lemma store_ok_process_return s invoiceNumber itemIds :
  store_ok s ->
  store_ok (fst (invoices_process_return s invoiceNumber itemIds)).
Proof.
  intros [Hall Hsorted]. unfold invoices_process_return.
  destruct (find_invoice (sampleInvoices s) invoiceNumber)
    as [[k inv]|] eqn:Hf; simpl; [|by split].
  apply find_invoice_Some in Hf as [Hk _]. split; simpl.
  - apply Forall_insert; [exact Hall|].
    apply invoice_ok_returned.
    by eapply (Forall_lookup_1 _ _ _ _ Hall).
  - rewrite list_fmap_insert. simpl.
    rewrite list_insert_id; [exact Hsorted|].
    by rewrite list_lookup_fmap, Hk.
Qed.

Lemma store_ok_create s clk items pm email :
  store_ok s -> store_ok (fst (invoices_create s clk items pm email)).
Proof.
  intros [Hall Hsorted]. unfold invoices_create.
  destruct (create_loop _ _ _ _ _ _) as [err|[[subtotal vatTotal] its]]
    eqn:Hloop; simpl.
  - split; simpl; [|exact Hsorted].
    eapply Forall_impl; [exact Hall|]. intros inv. apply invoice_ok_mono. lia.
  - apply create_loop_lines in Hloop as (new & Hnew & Hlines & Hids).
    simpl in Hnew. subst its. split; simpl.
    + apply Forall_app. split.
      * eapply Forall_impl; [exact Hall|]. intros inv.
        apply invoice_ok_mono. lia.
      * constructor; [|constructor].
        split; [simpl; lia|]. split; [reflexivity|]. split; [|split].
        -- unfold line_ids_ok. simpl. rewrite Hids.
           apply list_fmap_ext. intros i k _. reflexivity.
        -- simpl. clear Hids. induction Hlines as [|req it ? ? Hit _ IH];
             constructor; [|exact IH].
           destruct Hit as (product & _ & Heq). by rewrite Heq.
        -- unfold status_ok. simpl. split; [|split]; [|discriminate|].
           ++ intros _. clear Hids.
              induction Hlines as [|req it ? ? Hit _ IH];
                constructor; [|exact IH].
              destruct Hit as (product & _ & Heq). by rewrite Heq.
           ++ intros Hne Hev. destruct Hlines as [|req it ? ? Hit _]; [done|].
              destruct Hit as (product & _ & Heq). rewrite Heq in Hev.
              discriminate.
    + rewrite fmap_app. apply StronglySorted_app_2; [|exact Hsorted|].
      * intros x y Hx Hy. apply list_elem_of_fmap in Hx as (inv & -> & Hinv).
        simpl in Hy. apply list_elem_of_singleton in Hy as ->.
        rewrite Forall_forall in Hall. destruct (Hall inv Hinv) as [Hle _].
        lia.
      * repeat constructor.
Qed.

(** Every store that the API can reach is well formed. *)
Lemma reachable_store_ok s : reachable s -> store_ok s.
Proof.
  induction 1 as [|s data _ IH|s data _ IH|s productId _ IH
                  |s clk items pm email _ IH|s n ids _ IH
                  |s updates _ IH|s st _ IH].
  - apply store_ok_initial.
  - exact IH.
  - unfold products_update.
    by destruct (find_product_index _ _) as [[index ?]|].
  - unfold products_delete.
    by destruct (find_product_index _ _) as [[index ?]|].
  - by apply store_ok_create.
  - by apply store_ok_process_return.
  - exact IH.
  - exact IH.
Qed.

(** In a well-formed store the invoice numbers are pairwise different,
    so the search by number returns the record that carries the number. *)
Lemma store_ok_numbers_NoDup s :
  store_ok s -> NoDup (Invoice.invoice_number <$> sampleInvoices s).
Proof.
  intros [Hall Hsorted].
  assert (Hnum : Invoice.invoice_number <$> sampleInvoices s
                 = invoice_number_of <$> (Invoice.id <$> sampleInvoices s)).
  { rewrite <- list_fmap_compose. apply Forall_fmap_ext_1.
    eapply Forall_impl; [exact Hall|]. by intros inv (_ & Hn & _). }
  rewrite Hnum. apply NoDup_fmap_2_strong.
  - intros a b _ _. apply invoice_number_of_inj.
  - clear Hall Hnum. induction Hsorted as [|x l _ IH Hx]; constructor.
    + intros Hin. rewrite Forall_forall in Hx. specialize (Hx x Hin). lia.
    + exact IH.
Qed.

Lemma find_invoice_lookup s k inv :
  store_ok s ->
  sampleInvoices s !! k = Some inv ->
  find_invoice (sampleInvoices s) (Invoice.invoice_number inv)
    = Some (k, inv).
Proof.
  intros Hok Hk. pose proof (store_ok_numbers_NoDup s Hok) as Hnd.
  unfold find_invoice. apply list_find_Some.
  split; [exact Hk|]. split; [reflexivity|].
  intros j y Hj Hlt Heq.
  assert (j = k); [|lia].
  eapply NoDup_lookup; [exact Hnd| |].
  - by rewrite list_lookup_fmap, Hj.
  - rewrite list_lookup_fmap, Hk. simpl. by rewrite Heq.
Qed.

End StoreFacts.

Section PayloadFacts.
Import Mock.

Lemma count_char_app (sep : ascii) (a b : string) :
  JS.count_char sep (a +:+ b) = JS.count_char sep a + JS.count_char sep b.
Proof. induction a as [|c a IH]; simpl; [done|]. rewrite IH. lia. Qed.

Lemma split_no_sep (sep : ascii) (a : string) :
  JS.count_char sep a = 0 -> JS.split sep a = [a].
Proof.
  induction a as [|c a IH]; simpl; [done|].
  destruct (Ascii.eqb c sep); [discriminate|]. simpl.
  intros H. by rewrite (IH H).
Qed.

(** A field without separator in front of a separator is the first
    field of the split. *)
Lemma split_app_sep (sep : ascii) (a b : string) :
  JS.count_char sep a = 0 ->
  JS.split sep (a +:+ String sep b) = a :: JS.split sep b.
Proof.
  induction a as [|c a IH]; simpl.
  - by rewrite Ascii.eqb_refl.
  - destruct (Ascii.eqb c sep); [discriminate|]. simpl.
    intros H. by rewrite (IH H).
Qed.

Lemma count_char_substring (sep : ascii) (s : string) :
  JS.count_char sep s = 0 ->
  forall n m, JS.count_char sep (substring n m s) = 0.
Proof.
  induction s as [|c s IH]; intros H n m.
  - by destruct n, m.
  - simpl in H. destruct (Ascii.eqb c sep) eqn:Hc; [discriminate|].
    destruct n as [|n]; [destruct m as [|m]|]; simpl; [done| |by apply IH].
    rewrite Hc. simpl. by apply IH.
Qed.

Lemma count_char_repeat_zero (k : nat) :
  JS.count_char "|" (JS.repeat_char k "0") = 0.
Proof. induction k as [|k IH]; [done|exact IH]. Qed.

Lemma count_char_decimal (d : Decimal.uint) :
  JS.count_char "|" (DecimalString.NilEmpty.string_of_uint d) = 0.
Proof. induction d; simpl; done. Qed.

Lemma count_char_hexadecimal (d : Hexadecimal.uint) :
  JS.count_char "|" (HexadecimalString.NilEmpty.string_of_uint d) = 0.
Proof. induction d; simpl; done. Qed.

Lemma count_char_padStart (k : nat) (s : string) :
  JS.count_char "|" s = 0 -> JS.count_char "|" (JS.padStart k "0" s) = 0.
Proof.
  intros H. unfold JS.padStart.
  by rewrite count_char_app, count_char_repeat_zero, H.
Qed.

Lemma count_char_invoice_number (c : N) :
  JS.count_char "|" (invoice_number_of c) = 0.
Proof.
  unfold invoice_number_of. rewrite count_char_app. simpl.
  apply count_char_padStart, count_char_decimal.
Qed.

Lemma count_char_toFixed2 (x : float) :
  JS.count_char "|" (JS.toFixed2 x) = 0.
Proof.
  unfold JS.toFixed2. destruct (Prim2SF x) as [s|s| |s m e].
  - reflexivity.
  - by destruct s.
  - reflexivity.
  - set (digits := JS.padStart 3 "0" _).
    assert (Hd : JS.count_char "|" digits = 0)
      by apply count_char_padStart, count_char_decimal.
    rewrite !count_char_app, !count_char_substring by exact Hd.
    by destruct s.
Qed.

Lemma count_char_hash_prefix (t : N) :
  JS.count_char "|" (JS.slice0 8 ("mock" +:+ JS.toString16 t)) = 0.
Proof.
  unfold JS.slice0. apply count_char_substring.
  rewrite count_char_app. simpl. apply count_char_hexadecimal.
Qed.

(** The payload that [invoices_create] composes splits into its six
    fields. *)
Lemma payload_split (num tot h8 ep : string) :
  JS.count_char "|" num = 0 -> JS.count_char "|" tot = 0 ->
  JS.count_char "|" h8 = 0 -> JS.count_char "|" ep = 0 ->
  JS.split "|"
    ("OPENINVOICE|v1|" +:+ num +:+ "|" +:+ tot +:+ "|" +:+ h8 +:+ "|" +:+ ep)
  = ["OPENINVOICE"; "v1"; num; tot; h8; ep].
Proof.
  intros Hn Ht Hh He.
  change ("OPENINVOICE|v1|" +:+ num +:+ "|" +:+ tot +:+ "|" +:+ h8 +:+ "|"
            +:+ ep)
    with ("OPENINVOICE" +:+ String "|" ("v1" +:+ String "|"
            (num +:+ String "|" (tot +:+ String "|"
               (h8 +:+ String "|" ep))))).
  rewrite !split_app_sep by done. by rewrite split_no_sep.
Qed.

End PayloadFacts.

Section CreateMore.
Import Mock Scenario.

(** A successful [invoices_create], field by field. *)
Lemma invoices_create_record s clk items pm email inv :
  ApiResponse.data (snd (invoices_create s clk items pm email)) = Some inv ->
  exists subtotal vatTotal its,
    create_loop (sampleProducts s) (invoiceCounter s + 1)%N items
      PrimFloat.zero PrimFloat.zero [] = inr (subtotal, vatTotal, its)
    /\ inv
       = Invoice.mk (invoiceCounter s + 1)%N
           (invoice_number_of (invoiceCounter s + 1))
           (Settings.seller_id (mockSettings s))
           (Settings.store_name (mockSettings s))
           (round_cents subtotal) (round_cents vatTotal)
           (round_cents (PrimFloat.add subtotal vatTotal))
           pm email None ("mock" +:+ JS.toString16 (now_hash clk))
           ("OPENINVOICE|v1|" +:+ invoice_number_of (invoiceCounter s + 1)
              +:+ "|" +:+ JS.toFixed2 (PrimFloat.add subtotal vatTotal)
              +:+ "|"
              +:+ JS.slice0 8 ("mock" +:+ JS.toString16 (now_hash clk))
              +:+ "|" +:+ JS.String_of_N (JS.floor_div_1000 (now_qr clk)))
           (Some mockQrImage) Status.completed (toISOString clk) its
           (Some (Settings.currency_symbol (mockSettings s)))
    /\ fst (invoices_create s clk items pm email)
       = mkState (sampleProducts s) (sampleInvoices s ++ [inv])
           (mockSettings s) (invoiceCounter s + 1)%N
    /\ snd (invoices_create s clk items pm email) = ApiResponse.ok inv.
Proof.
  unfold invoices_create.
  destruct (create_loop _ _ _ _ _ _) as [err|[[subtotal vatTotal] its]];
    simpl; [discriminate|].
  intros [= <-]. exists subtotal, vatTotal, its. by repeat split.
Qed.

(** X1: when every requested product id is in the catalogue,
    [invoices_create] succeeds; the invoice takes the next counter value
    as id, has one line per request, in order, built from the first
    catalogue product with the requested id and the requested quantity,
    and is appended to the store; nothing else of the state changes
    except the counter. *)
Theorem X1_create_succeeds_when_products_resolve (s : state) (clk : clock)
    (items : list ItemRequest.t) (pm : string) (email : option string) :
  Forall (resolves (sampleProducts s)) items ->
  exists inv,
    snd (invoices_create s clk items pm email) = ApiResponse.ok inv
    /\ Invoice.id inv = (invoiceCounter s + 1)%N
    /\ Forall2 (line_for (sampleProducts s) (invoiceCounter s + 1)%N)
         items (Invoice.items inv)
    /\ fst (invoices_create s clk items pm email)
       = mkState (sampleProducts s) (sampleInvoices s ++ [inv])
           (mockSettings s) (invoiceCounter s + 1)%N.
Proof.
  intros Hall.
  destruct (create_loop_resolves (sampleProducts s) (invoiceCounter s + 1)%N
              items PrimFloat.zero PrimFloat.zero [] Hall)
    as ([[subtotal vatTotal] its] & Hloop).
  pose proof (create_loop_lines _ _ _ _ _ _ _ _ _ Hloop)
    as (new & Hnew & Hlines & _).
  simpl in Hnew. subst its.
  unfold invoices_create. rewrite Hloop. simpl.
  eexists. split; [reflexivity|]. by repeat split.
Qed.

Lemma X1_create_succeeds_when_products_resolve_witness :
  exists inv,
    snd (invoices_create initial_state clk1 two_espressos "cash" None)
      = ApiResponse.ok inv
    /\ Invoice.id inv = 2%N.
Proof.
  destruct (X1_create_succeeds_when_products_resolve initial_state clk1
              two_espressos "cash" None)
    as (inv & Hr & Hid & _).
  - repeat constructor. by eexists.
  - exists inv. by split.
Defined.

(** X2: when some requested product id is not in the catalogue,
    [invoices_create] fails with "Product <id> not found" for the first
    such id; no record is stored and products and settings are as
    before, but the invoice counter has advanced by one, so the number it
    stood for is never given to an invoice. *)
Theorem X2_create_fails_on_first_unknown_product (s : state) (clk : clock)
    (pre post : list ItemRequest.t) (req : ItemRequest.t) (pm : string)
    (email : option string) :
  Forall (resolves (sampleProducts s)) pre ->
  find_product (sampleProducts s) (ItemRequest.product_id req) = None ->
  invoices_create s clk (pre ++ req :: post) pm email
  = (mkState (sampleProducts s) (sampleInvoices s) (mockSettings s)
       (invoiceCounter s + 1)%N,
     ApiResponse.fail
       ("Product " +:+ ItemRequest.product_id req +:+ " not found")).
Proof.
  intros Hpre Hnone. unfold invoices_create.
  assert (Hloop : create_loop (sampleProducts s) (invoiceCounter s + 1)%N
                    (pre ++ req :: post) PrimFloat.zero PrimFloat.zero []
                  = inl ("Product " +:+ ItemRequest.product_id req
                           +:+ " not found")).
  { apply create_loop_inl. by exists pre, req, post. }
  by rewrite Hloop.
Qed.

Lemma X2_create_fails_on_first_unknown_product_witness :
  invoices_create initial_state clk1
    (two_espressos ++ ItemRequest.mk "NOPE" 1%float :: one_espresso)
    "cash" None
  = (mkState sampleProducts0 sampleInvoices0 mockSettings0 2,
     ApiResponse.fail "Product NOPE not found").
Proof.
  apply (X2_create_fails_on_first_unknown_product initial_state clk1
           two_espressos one_espresso (ItemRequest.mk "NOPE" 1%float)).
  - repeat constructor. by eexists.
  - reflexivity.
Defined.

End CreateMore.

Section CreatedFacts.
Import Mock.

(** The record that a successful [invoices_create] appends is the one
    that the search by its number finds afterwards. *)
Lemma created_invoice_found s clk items pm email inv :
  reachable s ->
  ApiResponse.data (snd (invoices_create s clk items pm email)) = Some inv ->
  find_invoice
    (sampleInvoices (fst (invoices_create s clk items pm email)))
    (Invoice.invoice_number inv)
  = Some (length (sampleInvoices s), inv).
Proof.
  intros Hr Hdata.
  pose proof (reach_invoices_create s clk items pm email Hr) as Hr'.
  apply invoices_create_record in Hdata
    as (sub & vat & its & _ & Hinv & Hst & _).
  apply find_invoice_lookup; [by apply reachable_store_ok|].
  rewrite Hst. simpl. by rewrite lookup_app_r, Nat.sub_diag.
Qed.

End CreatedFacts.

Section StoreClaims.
Import Mock Scenario.

(** X3: in every state that the API can reach, the ids of the stored
    invoices increase strictly in store order and none exceeds the
    invoice counter, the number of every record is "INV-2024-" followed
    by its id padded to four digits, and no two records have the same
    invoice number. *)
Theorem X3_invoice_numbers_are_unique (s : state) :
  reachable s ->
  StronglySorted N.lt (Invoice.id <$> sampleInvoices s)
  /\ Forall (fun inv =>
               (Invoice.id inv <= invoiceCounter s)%N
               /\ Invoice.invoice_number inv
                  = invoice_number_of (Invoice.id inv))
       (sampleInvoices s)
  /\ NoDup (Invoice.invoice_number <$> sampleInvoices s).
Proof.
  intros Hr. pose proof (reachable_store_ok s Hr) as Hok.
  split; [apply Hok|]. split; [|by apply store_ok_numbers_NoDup].
  destruct Hok as [Hall _]. eapply Forall_impl; [exact Hall|].
  by intros inv (? & ? & _).
Qed.

Lemma X3_invoice_numbers_are_unique_witness :
  NoDup (Invoice.invoice_number <$> sampleInvoices chain3).
Proof.
  apply (X3_invoice_numbers_are_unique chain3).
  unfold chain3. apply reach_invoices_create, reach_invoices_create,
    reach_initial.
Defined.

(** X4: in every state that the API can reach, the lines of every stored
    invoice are numbered 1, 2, ..., n in order and carry the id of their
    invoice, so a line id names at most one line of an invoice. *)
Theorem X4_line_ids_count_from_one (s : state) :
  reachable s ->
  Forall (fun inv =>
            InvoiceItem.id <$> Invoice.items inv
            = (fun k => N.of_nat (S k))
                <$> seq 0 (length (Invoice.items inv))
            /\ NoDup (InvoiceItem.id <$> Invoice.items inv)
            /\ Forall (fun it => InvoiceItem.invoice_id it = Invoice.id inv)
                 (Invoice.items inv))
    (sampleInvoices s).
Proof.
  intros Hr. destruct (reachable_store_ok s Hr) as [Hall _].
  eapply Forall_impl; [exact Hall|].
  intros inv (_ & _ & Hids & Hback & _). split; [exact Hids|].
  split; [|exact Hback]. rewrite Hids.
  apply NoDup_fmap_2; [|apply NoDup_seq].
  intros a b Hab. lia.
Qed.

Lemma X4_line_ids_count_from_one_witness :
  Forall (fun inv => NoDup (InvoiceItem.id <$> Invoice.items inv))
    (sampleInvoices chain3).
Proof.
  eapply Forall_impl.
  - apply (X4_line_ids_count_from_one chain3).
    unfold chain3. apply reach_invoices_create, reach_invoices_create,
      reach_initial.
  - intros inv H. apply H.
Defined.

(** X5: in every state that the API can reach, an invoice with status
    [completed] has no returned line, an invoice with status [returned]
    has all its lines returned, and an invoice that has lines, all of
    them returned, has status [returned]. *)
Theorem X5_status_follows_returned_lines (s : state) :
  reachable s ->
  Forall (fun inv =>
            (Invoice.status inv = Status.completed ->
             Forall (fun it =>
                       InvoiceItem.return_status it = ReturnStatus.none)
               (Invoice.items inv))
            /\ (Invoice.status inv = Status.returned ->
                Forall (fun it =>
                          InvoiceItem.return_status it
                          = ReturnStatus.returned) (Invoice.items inv))
            /\ (Invoice.items inv <> [] ->
                Forall (fun it =>
                          InvoiceItem.return_status it
                          = ReturnStatus.returned) (Invoice.items inv) ->
                Invoice.status inv = Status.returned))
    (sampleInvoices s).
Proof.
  intros Hr. destruct (reachable_store_ok s Hr) as [Hall _].
  eapply Forall_impl; [exact Hall|].
  intros inv (_ & _ & _ & _ & Hc & Hret & Hall').
  split; [exact Hc|]. split.
  - intros Hst. by apply every_returned_Forall, Hret.
  - intros Hne Hev. apply Hall'; [exact Hne|].
    by apply every_returned_Forall.
Qed.

Lemma X5_status_follows_returned_lines_witness :
  Forall (fun inv =>
            Invoice.status inv = Status.completed ->
            Forall (fun it =>
                      InvoiceItem.return_status it = ReturnStatus.none)
              (Invoice.items inv))
    (sampleInvoices
       (fst (invoices_process_return chain3 "INV-2024-0002" [1%N]))).
Proof.
  eapply Forall_impl.
  - apply (X5_status_follows_returned_lines
             (fst (invoices_process_return chain3 "INV-2024-0002" [1%N]))).
    unfold chain3. apply reach_invoices_process_return,
      reach_invoices_create, reach_invoices_create, reach_initial.
  - intros inv H. apply H.
Defined.

(** X6: in every state that the API can reach, looking an invoice up by
    the number of a stored record returns a copy of that very record
    (with the QR image filled in), and a return request under that
    number leaves every other record of the store as it is. *)
Theorem X6_lookup_by_number_finds_the_record (s : state) (k : nat)
    (inv : Invoice.t) :
  reachable s ->
  sampleInvoices s !! k = Some inv ->
  invoices_get_by_number s (Invoice.invoice_number inv)
  = ApiResponse.ok (Invoice.with_qr_image mockQrImage inv)
  /\ forall itemIds j,
       j <> k ->
       sampleInvoices
         (fst (invoices_process_return s (Invoice.invoice_number inv)
                 itemIds)) !! j
       = sampleInvoices s !! j.
Proof.
  intros Hr Hk. pose proof (reachable_store_ok s Hr) as Hok.
  pose proof (find_invoice_lookup s k inv Hok Hk) as Hf.
  split.
  - unfold invoices_get_by_number. by rewrite Hf.
  - intros ids j Hj. rewrite (process_return_found _ _ ids _ _ Hf). simpl.
    by rewrite list_lookup_insert_ne.
Qed.

Lemma X6_lookup_by_number_finds_the_record_witness :
  invoices_get_by_number initial_state "INV-2024-0001"
  = ApiResponse.ok (Invoice.with_qr_image mockQrImage sampleInvoice1).
Proof.
  exact (proj1 (X6_lookup_by_number_finds_the_record initial_state 0%nat
                  sampleInvoice1 reach_initial eq_refl)).
Defined.

(** X7: after a successful [invoices_create] in a reachable state, the
    lookup by the new invoice's number returns exactly the invoice that
    the call returned. *)
Theorem X7_created_invoice_is_found_by_number (s : state) (clk : clock)
    (items : list ItemRequest.t) (pm : string) (email : option string)
    (inv : Invoice.t) :
  reachable s ->
  ApiResponse.data (snd (invoices_create s clk items pm email)) = Some inv ->
  invoices_get_by_number (fst (invoices_create s clk items pm email))
    (Invoice.invoice_number inv)
  = ApiResponse.ok inv.
Proof.
  intros Hr Hdata.
  pose proof (created_invoice_found s clk items pm email inv Hr Hdata) as Hf.
  apply invoices_create_record in Hdata
    as (sub & vat & its & _ & Hinv & _ & _).
  unfold invoices_get_by_number. rewrite Hf. by rewrite Hinv.
Qed.

End StoreClaims.

Section RoundTripClaims.
Import Mock Scenario.

Lemma X7_created_invoice_is_found_by_number_witness :
  ApiResponse.success
    (invoices_get_by_number
       (fst (invoices_create initial_state clk1 two_espressos "cash" None))
       "INV-2024-0002")
  = true.
Proof.
  exact (f_equal ApiResponse.success
           (X7_created_invoice_is_found_by_number initial_state clk1
              two_espressos "cash" None _ reach_initial eq_refl)).
Defined.

(** X8: the QR payload of every invoice that [invoices_create] builds in
    a reachable state has exactly six fields: OPENINVOICE, v1, the
    invoice number, a total, the first 8 characters of [current_hash] and
    the epoch seconds of the clock.  The total field is [toFixed(2)] of
    the unrounded sum of the lines' totals and VAT (stated for sums
    below 1e21, where [toFixed] writes plain digits); it is not taken
    from the stored, rounded [total].  [qr_validate] answers the
    payload, on the store after the call, with a valid verdict that
    carries the invoice's number and the invoice itself. *)
Theorem X8_created_payload_validates (s : state) (clk : clock)
    (items : list ItemRequest.t) (pm : string) (email : option string)
    (inv : Invoice.t) :
  reachable s ->
  ApiResponse.data (snd (invoices_create s clk items pm email)) = Some inv ->
  (exists tot,
     JS.split "|" (Invoice.qr_data inv)
     = ["OPENINVOICE"; "v1"; Invoice.invoice_number inv; tot;
        JS.slice0 8 (Invoice.current_hash inv);
        JS.String_of_N (JS.floor_div_1000 (now_qr clk))]
     /\ (PrimFloat.ltb
           (PrimFloat.abs
              (PrimFloat.add (raw_subtotal (Invoice.items inv))
                 (raw_vat (Invoice.items inv))))
           1e21%float = true ->
         tot = JS.toFixed2
                 (PrimFloat.add (raw_subtotal (Invoice.items inv))
                    (raw_vat (Invoice.items inv)))))
  /\ qr_validate (fst (invoices_create s clk items pm email))
       (Invoice.qr_data inv)
     = ApiResponse.ok
         (ValidationResult.mk true (Some (Invoice.invoice_number inv)) None
            (Some inv) (Some all_checks_true)).
Proof.
  intros Hr Hdata.
  pose proof (created_invoice_found s clk items pm email inv Hr Hdata) as Hf.
  apply invoices_create_record in Hdata
    as (sub & vat & its & Hloop & Hinv & _ & _).
  assert (Hsplit : JS.split "|" (Invoice.qr_data inv)
                   = ["OPENINVOICE"; "v1"; Invoice.invoice_number inv;
                      JS.toFixed2 (PrimFloat.add sub vat);
                      JS.slice0 8 (Invoice.current_hash inv);
                      JS.String_of_N (JS.floor_div_1000 (now_qr clk))]).
  { rewrite Hinv. cbn [Invoice.qr_data Invoice.invoice_number
                       Invoice.current_hash].
    apply payload_split.
    - apply count_char_invoice_number.
    - apply count_char_toFixed2.
    - apply count_char_hash_prefix.
    - apply count_char_decimal. }
  split.
  - exists (JS.toFixed2 (PrimFloat.add sub vat)). split; [exact Hsplit|].
    intros _. apply create_loop_inr in Hloop as (new & Hnew & _ & _ & -> & ->).
    simpl in Hnew. subst its. rewrite Hinv. reflexivity.
  - unfold qr_validate. rewrite Hsplit.
    change (bad_format _) with false. cbn [part nth].
    rewrite Hf. cbn iota beta. do 3 f_equal.
    rewrite Hinv. reflexivity.
Qed.

Lemma X8_created_payload_validates_witness :
  qr_validate
    (fst (invoices_create initial_state clk1 one_espresso "cash" None))
    "OPENINVOICE|v1|INV-2024-0002|3.02|mock18d6|1706781600"
  = ApiResponse.ok
      (ValidationResult.mk true (Some "INV-2024-0002") None
         (ApiResponse.data
            (snd (invoices_create initial_state clk1 one_espresso "cash"
                    None)))
         (Some all_checks_true)).
Proof.
  exact (proj2 (X8_created_payload_validates initial_state clk1
                  one_espresso "cash" None _ reach_initial eq_refl)).
Defined.

End RoundTripClaims.

Section ReturnMoreFacts.
Import Mock Scenario.

Lemma Forall2_diag {A} (R : A -> A -> Prop) (l : list A) :
  (forall x, R x x) -> Forall2 R l l.
Proof. intros HR. induction l; constructor; auto. Qed.

Lemma mark_returned_idem ids its :
  mark_returned ids (mark_returned ids its) = mark_returned ids its.
Proof.
  unfold mark_returned. rewrite <- list_fmap_compose.
  apply list_fmap_ext. intros i it _. simpl.
  destruct (JS.includes ids (InvoiceItem.id it)) eqn:Hin; simpl;
    by rewrite Hin.
Qed.

Lemma mark_returned_keeps_returned ids its :
  Forall2 (fun a b =>
             InvoiceItem.return_status a = ReturnStatus.returned ->
             InvoiceItem.return_status b = ReturnStatus.returned)
    its (mark_returned ids its).
Proof.
  unfold mark_returned. induction its as [|it its IH]; simpl;
    constructor; [|exact IH].
  by destruct (JS.includes ids (InvoiceItem.id it)).
Qed.

Lemma mark_returned_requested ids its :
  Forall (fun it =>
            JS.includes ids (InvoiceItem.id it) = true ->
            InvoiceItem.return_status it = ReturnStatus.returned)
    (mark_returned ids its).
Proof.
  unfold mark_returned. apply Forall_fmap, Forall_forall.
  intros it _. simpl.
  destruct (JS.includes ids (InvoiceItem.id it)) eqn:Hin; simpl;
    [done|]. by rewrite Hin.
Qed.

(** The sum over the selected lines is the conditional sum of the API. *)
Lemma fold_filter_refund ids its acc :
  fold_left (fun sum item => PrimFloat.add sum (InvoiceItem.line_total item))
    (List.filter (fun item => JS.includes ids (InvoiceItem.id item)) its) acc
  = fold_left
      (fun refundAmount item =>
         if JS.includes ids (InvoiceItem.id item)
         then PrimFloat.add refundAmount (InvoiceItem.line_total item)
         else refundAmount) its acc.
Proof.
  revert acc. induction its as [|it its IH]; intros acc; simpl; [done|].
  destruct (JS.includes ids (InvoiceItem.id it)); simpl; apply IH.
Qed.

Lemma refund_of_all ids its :
  Forall (fun it => JS.includes ids (InvoiceItem.id it) = true) its ->
  refund_of ids its = raw_subtotal its.
Proof.
  unfold refund_of, raw_subtotal. intros Hall. generalize PrimFloat.zero.
  induction Hall as [|it its Hit _ IH]; intros acc; simpl; [done|].
  by rewrite Hit, IH.
Qed.

End ReturnMoreFacts.

Section ReturnMoreClaims.
Import Mock Scenario.

(** X9: [invoices_process_return] succeeds exactly when some stored
    record has the requested invoice number; otherwise it answers
    "Invoice not found" and returns the state as it was. *)
Theorem X9_return_fails_iff_number_is_unknown (s : state)
    (invoiceNumber : string) (itemIds : list N) :
  (ApiResponse.success (snd (invoices_process_return s invoiceNumber itemIds))
   = true
   <-> invoiceNumber ∈ Invoice.invoice_number <$> sampleInvoices s)
  /\ (invoiceNumber ∉ Invoice.invoice_number <$> sampleInvoices s ->
      invoices_process_return s invoiceNumber itemIds
      = (s, ApiResponse.fail "Invoice not found")).
Proof.
  unfold invoices_process_return.
  destruct (find_invoice (sampleInvoices s) invoiceNumber)
    as [[k inv]|] eqn:Hf; simpl.
  - apply find_invoice_Some in Hf as [Hk Hn].
    assert (Hin : invoiceNumber ∈ Invoice.invoice_number <$> sampleInvoices s).
    { apply list_elem_of_fmap. exists inv. split; [done|].
      apply list_elem_of_lookup. by exists k. }
    split; [done|]. intros Hnot. by destruct Hnot.
  - unfold find_invoice in Hf. apply list_find_None in Hf.
    split; [|done]. split; [discriminate|].
    intros Hin. apply list_elem_of_fmap in Hin as (inv & -> & Hinv).
    rewrite Forall_forall in Hf. by destruct (Hf inv Hinv).
Qed.

(** X10: a return request never turns a returned line back: every line
    that was returned before the call is returned after it; and the same
    request made a second time leaves the store exactly as the first one
    left it. *)
Theorem X10_returns_are_monotone_and_idempotent (s : state)
    (invoiceNumber : string) (itemIds : list N) :
  let s' := fst (invoices_process_return s invoiceNumber itemIds) in
  Forall2 (fun a b =>
             Forall2 (fun x y =>
                        InvoiceItem.return_status x = ReturnStatus.returned
                        -> InvoiceItem.return_status y
                           = ReturnStatus.returned)
               (Invoice.items a) (Invoice.items b))
    (sampleInvoices s) (sampleInvoices s')
  /\ fst (invoices_process_return s' invoiceNumber itemIds) = s'.
Proof.
  simpl.
  destruct (find_invoice (sampleInvoices s) invoiceNumber)
    as [[k inv]|] eqn:Hf.
  - pose proof (find_invoice_Some _ _ _ _ Hf) as [Hk Hn].
    rewrite (process_return_found _ _ itemIds _ _ Hf). simpl. split.
    + rewrite <- (list_insert_id (sampleInvoices s) k inv Hk) at 1.
      apply Forall2_insert.
      * apply Forall2_diag. intros a. by apply Forall2_diag.
      * simpl. apply mark_returned_keeps_returned.
    + erewrite process_return_found;
        [|simpl; eapply find_invoice_insert; [exact Hf|exact Hn]].
      simpl. unfold Invoice.set_items_status. simpl.
      rewrite mark_returned_idem, list_insert_insert_eq. reflexivity.
  - unfold invoices_process_return. rewrite Hf. simpl. rewrite Hf. simpl.
    split; [|done]. apply Forall2_diag. intros a. by apply Forall2_diag.
Qed.

(** X11: after a successful return request the status in the answer is
    the status stored in the record; it is [returned] exactly when all
    lines of the record are then returned and [partial_return]
    otherwise, never [completed]; every requested line of the record is
    returned. *)
Theorem X11_status_after_a_return (s : state) (invoiceNumber : string)
    (itemIds : list N) (k : nat) (inv : Invoice.t) :
  find_invoice (sampleInvoices s) invoiceNumber = Some (k, inv) ->
  exists inv' r,
    sampleInvoices (fst (invoices_process_return s invoiceNumber itemIds))
      !! k = Some inv'
    /\ snd (invoices_process_return s invoiceNumber itemIds)
       = ApiResponse.ok r
    /\ ReturnResult.new_status r = Invoice.status inv'
    /\ (Invoice.status inv' = Status.returned
        <-> Forall (fun it =>
                      InvoiceItem.return_status it = ReturnStatus.returned)
              (Invoice.items inv'))
    /\ (Invoice.status inv' <> Status.returned ->
        Invoice.status inv' = Status.partial_return)
    /\ Forall (fun it =>
                 JS.includes itemIds (InvoiceItem.id it) = true ->
                 InvoiceItem.return_status it = ReturnStatus.returned)
         (Invoice.items inv').
Proof.
  intros Hf. pose proof (find_invoice_Some _ _ _ _ Hf) as [Hk _].
  rewrite (process_return_found _ _ itemIds _ _ Hf). simpl.
  eexists. eexists. split.
  { apply list_lookup_insert_eq. by eapply lookup_lt_Some. }
  split; [reflexivity|]. simpl. split; [reflexivity|].
  split; [|split; [|apply mark_returned_requested]].
  - rewrite <- every_returned_Forall.
    by destruct (every_returned _).
  - by destruct (every_returned _).
Qed.

Lemma X11_status_after_a_return_witness :
  exists inv' r,
    sampleInvoices
      (fst (invoices_process_return initial_state "INV-2024-0001" [2%N]))
      !! 0%nat = Some inv'
    /\ snd (invoices_process_return initial_state "INV-2024-0001" [2%N])
       = ApiResponse.ok r
    /\ ReturnResult.new_status r = Invoice.status inv'.
Proof.
  destruct (X11_status_after_a_return initial_state "INV-2024-0001" [2%N]
              0%nat sampleInvoice1 eq_refl)
    as (inv' & r & H1 & H2 & H3 & _).
  by exists inv', r.
Defined.

(** X12: a return request that names every line of the invoice sets the
    status to [returned], leaves all lines returned, and refunds the
    unrounded sum of all line totals, whatever was returned before. *)
Theorem X12_returning_every_line (s : state) (invoiceNumber : string)
    (itemIds : list N) (k : nat) (inv : Invoice.t) :
  find_invoice (sampleInvoices s) invoiceNumber = Some (k, inv) ->
  Forall (fun it => JS.includes itemIds (InvoiceItem.id it) = true)
    (Invoice.items inv) ->
  snd (invoices_process_return s invoiceNumber itemIds)
  = ApiResponse.ok
      (ReturnResult.mk invoiceNumber (raw_subtotal (Invoice.items inv))
         Status.returned)
  /\ exists inv',
       sampleInvoices (fst (invoices_process_return s invoiceNumber itemIds))
         !! k = Some inv'
       /\ Invoice.status inv' = Status.returned
       /\ Forall (fun it =>
                    InvoiceItem.return_status it = ReturnStatus.returned)
            (Invoice.items inv').
Proof.
  intros Hf Hall. pose proof (find_invoice_Some _ _ _ _ Hf) as [Hk _].
  rewrite (process_return_found _ _ itemIds _ _ Hf). simpl.
  assert (Hev : every_returned (mark_returned itemIds (Invoice.items inv))
                = true).
  { apply every_returned_Forall.
    pose proof (mark_returned_requested itemIds (Invoice.items inv)) as Hreq.
    assert (Hall' : Forall (fun it =>
                              JS.includes itemIds (InvoiceItem.id it) = true)
                      (mark_returned itemIds (Invoice.items inv))).
    { unfold mark_returned. apply Forall_fmap.
      eapply Forall_impl; [exact Hall|]. intros it Hit. simpl.
      by rewrite Hit. }
    rewrite Forall_forall in Hreq, Hall'. apply Forall_forall.
    intros it Hit. apply Hreq; [exact Hit|]. by apply Hall'. }
  rewrite Hev, (refund_of_all _ _ Hall). split; [reflexivity|].
  eexists. split.
  { apply list_lookup_insert_eq. by eapply lookup_lt_Some. }
  simpl. split; [reflexivity|]. by apply every_returned_Forall.
Qed.

Lemma X12_returning_every_line_witness :
  snd (invoices_process_return initial_state "INV-2024-0001" [1%N; 2%N])
  = ApiResponse.ok
      (ReturnResult.mk "INV-2024-0001" 9%float Status.returned).
Proof.
  refine (proj1 (X12_returning_every_line initial_state "INV-2024-0001"
                   [1%N; 2%N] 0%nat sampleInvoice1 eq_refl _)).
  repeat constructor.
Defined.

(** X13: the refund that the scan page previews for its selection,
    computed over the copy of the record that the lookup by number
    returns, is the [refund_amount] that [invoices_process_return]
    answers for the same number and selection on the same store; when
    the number is unknown both have nothing to show. *)
Theorem X13_refund_preview_is_the_refund (s : state)
    (invoiceNumber : string) (selectedItems : list N) :
  match ApiResponse.data
          (snd (invoices_process_return s invoiceNumber selectedItems)) with
  | Some r =>
      ReturnResult.refund_amount r
      = ScanPage.getRefundAmount
          (ApiResponse.data (invoices_get_by_number s invoiceNumber))
          selectedItems
  | None =>
      ApiResponse.data (invoices_get_by_number s invoiceNumber) = None
      /\ ScanPage.getRefundAmount
           (ApiResponse.data (invoices_get_by_number s invoiceNumber))
           selectedItems = 0%float
  end.
Proof.
  unfold invoices_process_return, invoices_get_by_number.
  destruct (find_invoice (sampleInvoices s) invoiceNumber)
    as [[k inv]|]; simpl; [|done].
  symmetry. apply fold_filter_refund.
Qed.

End ReturnMoreClaims.

Section CatalogueFacts.
Import Mock.

(** The two searches by id agree: [find] returns the product that
    [findIndex] points at. *)
Lemma find_product_index_find (ps : list Product.t) (x : string) :
  find_product ps x = snd <$> find_product_index ps x.
Proof.
  unfold find_product, find_product_index.
  induction ps as [|p ps IH]; simpl; [done|].
  destruct (String.eqb_spec (Product.id p) x) as [Heq|Hne].
  - by rewrite decide_True.
  - rewrite decide_False by done. rewrite IH.
    by destruct (list_find _ ps) as [[i q]|].
Qed.

Lemma find_product_app (ps qs : list Product.t) (x : string) :
  find_product (ps ++ qs) x
  = match find_product ps x with
    | Some p => Some p
    | None => find_product qs x
    end.
Proof.
  unfold find_product. induction ps as [|p ps IH]; simpl; [done|].
  by destruct (String.eqb (Product.id p) x).
Qed.

(** Writing a product with the same id over the first product with that
    id: the search by that id gives the new product, every other search
    is as before. *)
Lemma find_product_insert (ps : list Product.t) (i : nat)
    (old new : Product.t) (x : string) :
  find_product_index ps (Product.id new) = Some (i, old) ->
  find_product (<[i := new]> ps) x
  = if decide (x = Product.id new) then Some new else find_product ps x.
Proof.
  unfold find_product, find_product_index. revert i.
  induction ps as [|p ps IH]; intros i; simpl; [done|].
  destruct (decide (Product.id p = Product.id new)) as [Heq|Hne].
  - intros [= <- <-]. simpl. rewrite Heq.
    destruct (decide (x = Product.id new)) as [->|Hx].
    + by rewrite String.eqb_refl.
    + by rewrite (proj2 (String.eqb_neq _ _)) by done.
  - destruct (list_find _ ps) as [[j q]|] eqn:Hf; [|discriminate].
    simpl. intros [= <- <-]. simpl.
    rewrite (IH j eq_refl).
    destruct (String.eqb_spec (Product.id p) x) as [Hpx|Hpx];
      [|reflexivity].
    rewrite decide_False; [done|]. congruence.
Qed.

(** Products that differ at most in [status] sell alike. *)
Lemma create_loop_same_sale (ps ps' : list Product.t) invoice_id items :
  (forall x,
     option_Forall2
       (fun p q => q = p \/ q = Product.set_status Product.inactive p)
       (find_product ps x) (find_product ps' x)) ->
  forall subtotal vatTotal invoiceItems,
  create_loop ps' invoice_id items subtotal vatTotal invoiceItems
  = create_loop ps invoice_id items subtotal vatTotal invoiceItems.
Proof.
  intros Hfind. induction items as [|item rest IH]; intros sub vat acc;
    simpl; [done|].
  destruct (Hfind (ItemRequest.product_id item)) as [p q Hpq|];
    [|reflexivity].
  destruct Hpq as [->| ->]; simpl; apply IH.
Qed.

Lemma find_product_deactivated (ps : list Product.t) (i : nat)
    (p : Product.t) (x : string) :
  find_product_index ps (Product.id p) = Some (i, p) ->
  option_Forall2
    (fun a b => b = a \/ b = Product.set_status Product.inactive a)
    (find_product ps x)
    (find_product (<[i := Product.set_status Product.inactive p]> ps) x).
Proof.
  intros Hf.
  rewrite (find_product_insert ps i p
             (Product.set_status Product.inactive p) x Hf).
  simpl. destruct (decide (x = Product.id p)) as [->|Hx].
  - rewrite find_product_index_find, Hf. simpl. constructor. by right.
  - destruct (find_product ps x); constructor. by left.
Qed.

End CatalogueFacts.

Section CatalogueClaims.
Import Mock Scenario.

(** X14: [products_delete] on an id that the catalogue has succeeds and
    rewrites one entry only, the first product with that id, which
    becomes [inactive] and is otherwise the same; no other entry, no
    invoice, no setting and not the counter changes.  Every later
    [invoices_create] answers exactly as it would have without the
    deletion, so a deleted product can still be sold.  Deleting an id
    that no product has fails and changes nothing. *)
Theorem X14_deleted_product_is_still_sold (s : state) (productId : string) :
  let s' := fst (products_delete s productId) in
  (forall p,
     find_product (sampleProducts s) productId = Some p ->
     exists i,
       sampleProducts s !! i = Some p
       /\ Product.id p = productId
       /\ (forall j q,
             sampleProducts s !! j = Some q -> j < i ->
             Product.id q <> productId)
       /\ products_delete s productId
          = (mkState
               (<[i := Product.mk (Product.id p) (Product.name p)
                         (Product.description p) (Product.price p)
                         (Product.vat_rate p) (Product.barcode p)
                         (Product.stock p) Product.inactive]>
                  (sampleProducts s))
               (sampleInvoices s) (mockSettings s) (invoiceCounter s),
             ApiResponse.mk true None None))
  /\ length (sampleProducts s') = length (sampleProducts s)
  /\ sampleInvoices s' = sampleInvoices s
  /\ (forall clk items pm email,
        snd (invoices_create s' clk items pm email)
        = snd (invoices_create s clk items pm email))
  /\ (find_product (sampleProducts s) productId = None ->
      products_delete s productId
      = (s, ApiResponse.fail "Product not found")).
Proof.
  simpl. unfold products_delete.
  rewrite (find_product_index_find (sampleProducts s) productId).
  destruct (find_product_index (sampleProducts s) productId)
    as [[i p]|] eqn:Hf; simpl.
  - pose proof Hf as Hf'. unfold find_product_index in Hf'.
    apply list_find_Some in Hf' as (Hi & Hid & Hfirst).
    subst productId.
    split; [|split; [apply length_insert|]].
    { intros p0 [= <-]. exists i. by repeat split. }
    split; [reflexivity|]. split; [|discriminate].
    intros clk items pm email. unfold invoices_create. simpl.
    rewrite (create_loop_same_sale (sampleProducts s));
      [|intros x; by apply find_product_deactivated].
    by destruct (create_loop _ _ _ _ _ _) as [err|[[sub vat] its]].
  - split; [discriminate|]. by repeat split.
Qed.

(** X15: [products_create] appends an active product and answers with
    it.  Every product id that was in the catalogue keeps resolving to
    the product it resolved to; the new product is the one found under
    its id only if that id was not taken, and when the id was taken
    every search of the catalogue by id answers as before. *)
Theorem X15_created_product_never_replaces_one (s : state)
    (data : PartialProduct.t) :
  exists new,
    products_create s data
    = (mkState (sampleProducts s ++ [new]) (sampleInvoices s)
         (mockSettings s) (invoiceCounter s),
       ApiResponse.ok new)
    /\ Product.status new = Product.active
    /\ (forall x p,
          find_product (sampleProducts s) x = Some p ->
          find_product (sampleProducts s ++ [new]) x = Some p)
    /\ (find_product (sampleProducts s) (Product.id new) = None ->
        find_product (sampleProducts s ++ [new]) (Product.id new)
        = Some new)
    /\ (find_product (sampleProducts s) (Product.id new) <> None ->
        forall x,
          find_product (sampleProducts s ++ [new]) x
          = find_product (sampleProducts s) x).
Proof.
  eexists. split; [reflexivity|]. split; [reflexivity|].
  split; [|split].
  - intros x p Hx. by rewrite find_product_app, Hx.
  - intros Hnone. rewrite find_product_app, Hnone.
    unfold find_product. simpl. by rewrite String.eqb_refl.
  - intros Hsome x. rewrite find_product_app.
    destruct (find_product (sampleProducts s) x) eqn:Hx; [done|].
    unfold find_product at 1. simpl.
    destruct (String.eqb_spec
                (or_string (PartialProduct.id data)
                   ("PROD" +:+ JS.padStart 3 "0"
                      (JS.String_of_N
                         (N.of_nat (length (sampleProducts s)) + 1)))) x)
      as [Heq|Hne]; [|done].
    simpl in Hsome. rewrite Heq in Hsome. congruence.
Qed.

(** X16: [products_update] replaces the first product that has the id of
    the given one: afterwards that id resolves to the given product and
    every other id resolves as before, the catalogue keeps its length and
    the stored invoices are untouched; when no product has the id, the
    call fails and changes nothing. *)
Theorem X16_update_replaces_the_first_match (s : state) (data : Product.t) :
  let s' := fst (products_update s data) in
  (find_product (sampleProducts s) (Product.id data) <> None ->
   snd (products_update s data) = ApiResponse.ok data
   /\ find_product (sampleProducts s') (Product.id data) = Some data
   /\ (forall x,
         x <> Product.id data ->
         find_product (sampleProducts s') x
         = find_product (sampleProducts s) x)
   /\ length (sampleProducts s') = length (sampleProducts s)
   /\ sampleInvoices s' = sampleInvoices s)
  /\ (find_product (sampleProducts s) (Product.id data) = None ->
      products_update s data = (s, ApiResponse.fail "Product not found")).
Proof.
  simpl. unfold products_update.
  rewrite (find_product_index_find (sampleProducts s) (Product.id data)).
  destruct (find_product_index (sampleProducts s) (Product.id data))
    as [[i old]|] eqn:Hf; simpl.
  - split; [|discriminate]. intros _. split; [reflexivity|].
    split; [|split; [|split; [apply length_insert|reflexivity]]].
    + rewrite (find_product_insert _ _ _ _ _ Hf). by rewrite decide_True.
    + intros x Hx. rewrite (find_product_insert _ _ _ _ _ Hf).
      by rewrite decide_False.
  - split; [done|]. reflexivity.
Qed.

End CatalogueClaims.

Section DeletedFacts.
Import Mock.

(** A search whose test does not look at [status] finds, after a product
    was marked inactive in place, the same product up to that mark. *)
Lemma find_after_deactivation (f : Product.t -> bool) (ps : list Product.t)
    (i : nat) (p : Product.t) :
  (forall q, f (Product.set_status Product.inactive q) = f q) ->
  ps !! i = Some p ->
  option_Forall2
    (fun a b => b = a \/ b = Product.set_status Product.inactive a)
    (List.find f ps)
    (List.find f (<[i := Product.set_status Product.inactive p]> ps)).
Proof.
  intros Hf. revert i. induction ps as [|q ps IH]; intros i Hi; [done|].
  destruct i as [|i]; simpl in *.
  - injection Hi as ->. rewrite Hf.
    destruct (f p); [constructor; by right|].
    destruct (List.find f ps); constructor. by left.
  - destruct (f q); [constructor; by left|]. by apply IH.
Qed.

Lemma filter_active_after_deactivation (ps : list Product.t) (i : nat)
    (p : Product.t) :
  ps !! i = Some p ->
  List.filter Product.is_active
    (<[i := Product.set_status Product.inactive p]> ps)
  `sublist_of` List.filter Product.is_active ps.
Proof.
  revert i. induction ps as [|q ps IH]; intros i Hi; [done|].
  destruct i as [|i]; simpl in *.
  - injection Hi as ->. destruct (Product.is_active p).
    + by apply sublist_cons.
    + reflexivity.
  - destruct (Product.is_active q).
    + apply sublist_skip. by apply IH.
    + by apply IH.
Qed.

Lemma find_over_app {A} (f : A -> bool) (l1 l2 : list A) :
  List.find f (l1 ++ l2)
  = match List.find f l1 with
    | Some x => Some x
    | None => List.find f l2
    end.
Proof. induction l1 as [|x l1 IH]; simpl; [done|]. by destruct (f x). Qed.

(** The catalogue around the first product with a given id. *)
Lemma first_match_split (ps : list Product.t) (x : string) (i : nat)
    (p : Product.t) :
  find_product_index ps x = Some (i, p) ->
  ps = take i ps ++ p :: drop (S i) ps
  /\ Forall (fun q => Product.id q <> x) (take i ps)
  /\ forall q, <[i := q]> ps = take i ps ++ q :: drop (S i) ps.
Proof.
  unfold find_product_index. intros Hf.
  apply list_find_Some in Hf as (Hi & _ & Hfirst).
  split; [by rewrite take_drop_middle|]. split.
  - apply Forall_forall. intros q Hq.
    apply list_elem_of_lookup in Hq as (j & Hj).
    pose proof (lookup_lt_Some _ _ _ Hj) as Hlt.
    rewrite length_take in Hlt. rewrite lookup_take_lt in Hj by lia.
    eapply Hfirst; [exact Hj|lia].
  - intros q. apply insert_take_drop. by eapply lookup_lt_Some.
Qed.

End DeletedFacts.

Section HiddenAndSettingsClaims.
Import Mock Scenario.

(** X17: when the catalogue has the id, [products_delete] takes exactly
    the first product with that id out of the list of
    [products_get_all]: the catalogue is [l1], that product, [l2], the
    list was the active products of [l1], the product if it was active,
    and the active products of [l2], and afterwards it is the active
    products of [l1] and [l2]; with pairwise different ids in the
    catalogue no listed product has the deleted id.
    [products_get_by_barcode] does not look at the status: for every
    barcode it fails as before or answers the product it answered
    before, marked inactive if that is the deleted one; a barcode that
    gave the deleted product still gives it, inactive. *)
Theorem X17_deleted_product_is_hidden_not_gone (s : state)
    (productId : string) (p : Product.t) :
  find_product (sampleProducts s) productId = Some p ->
  let s' := fst (products_delete s productId) in
  exists l1 l2,
    sampleProducts s = l1 ++ p :: l2
    /\ Forall (fun q => Product.id q <> productId) l1
    /\ products_get_all s
       = ApiResponse.ok
           (List.filter Product.is_active l1
            ++ (if Product.is_active p then [p] else [])
            ++ List.filter Product.is_active l2)
    /\ products_get_all s'
       = ApiResponse.ok
           (List.filter Product.is_active l1
            ++ List.filter Product.is_active l2)
    /\ (NoDup (Product.id <$> sampleProducts s) ->
        forall listed,
          products_get_all s' = ApiResponse.ok listed ->
          productId ∉ Product.id <$> listed)
    /\ (forall barcode,
          match ApiResponse.data (products_get_by_barcode s barcode) with
          | Some q =>
              products_get_by_barcode s' barcode = ApiResponse.ok q
              \/ products_get_by_barcode s' barcode
                 = ApiResponse.ok (Product.set_status Product.inactive q)
          | None =>
              products_get_by_barcode s' barcode
              = ApiResponse.fail "Product not found"
          end)
    /\ (forall barcode,
          products_get_by_barcode s barcode = ApiResponse.ok p ->
          products_get_by_barcode s' barcode
          = ApiResponse.ok (Product.set_status Product.inactive p)).
Proof.
  intros Hfind. simpl.
  rewrite find_product_index_find in Hfind.
  destruct (find_product_index (sampleProducts s) productId)
    as [[i p']|] eqn:Hf; [|discriminate].
  simpl in Hfind. injection Hfind as ->.
  destruct (first_match_split _ _ _ _ Hf) as (Hsplit & Hl1 & Hins).
  set (l1 := take i (sampleProducts s)) in *.
  set (l2 := drop (S i) (sampleProducts s)) in *.
  assert (Hs' : sampleProducts (fst (products_delete s productId))
                = l1 ++ Product.set_status Product.inactive p :: l2).
  { unfold products_delete. rewrite Hf. simpl. apply Hins. }
  assert (Hall' : products_get_all (fst (products_delete s productId))
                  = ApiResponse.ok
                      (List.filter Product.is_active l1
                       ++ List.filter Product.is_active l2)).
  { unfold products_get_all. rewrite Hs'. by rewrite List.filter_app. }
  exists l1, l2. split; [exact Hsplit|]. split; [exact Hl1|].
  split; [|split; [exact Hall'|split; [|split]]].
  - unfold products_get_all. rewrite Hsplit, List.filter_app. simpl.
    by destruct (Product.is_active p).
  - intros Hnd listed Hlisted. rewrite Hall' in Hlisted.
    injection Hlisted as <-.
    rewrite Hsplit, fmap_app, fmap_cons in Hnd.
    apply NoDup_app in Hnd as (_ & Hdisj & Hnd2).
    apply NoDup_cons in Hnd2 as [Hnot2 _].
    assert (Hidp : Product.id p = productId).
    { unfold find_product_index in Hf.
      by apply list_find_Some in Hf as (_ & ? & _). }
    rewrite Hidp in *.
    rewrite fmap_app, elem_of_app. intros [Hin|Hin];
      apply list_elem_of_fmap in Hin as (q & Hq & Hin);
      apply list_elem_of_In, filter_In in Hin as [Hin _];
      apply list_elem_of_In in Hin.
    + rewrite Forall_forall in Hl1. by destruct (Hl1 q Hin).
    + apply Hnot2. rewrite Hq. by apply list_elem_of_fmap_2.
  - intros barcode. unfold products_get_by_barcode.
    assert (Hi : sampleProducts s !! i = Some p).
    { unfold find_product_index in Hf.
      by apply list_find_Some in Hf as (? & _). }
    pose proof (find_after_deactivation
                  (fun q => bool_decide (Product.barcode q = Some barcode))
                  (sampleProducts s) i p (fun q => eq_refl) Hi) as Hrel.
    rewrite Hs', <- Hins.
    destruct Hrel as [a b [->| ->]|]; simpl; auto.
  - intros barcode. unfold products_get_by_barcode.
    rewrite Hs', Hsplit, !find_over_app.
    destruct (List.find _ l1) as [q|] eqn:Hq1.
    + intros [= ->]. apply List.find_some in Hq1 as [Hin _].
      apply list_elem_of_In in Hin. rewrite Forall_forall in Hl1.
      destruct (Hl1 p Hin).
      unfold find_product_index in Hf.
      by apply list_find_Some in Hf as (_ & ? & _).
    + simpl.
      destruct (bool_decide (Product.barcode p = Some barcode)) eqn:Hb;
        [reflexivity|].
      destruct (List.find _ l2) as [q|] eqn:Hq2; [|discriminate].
      intros [= ->]. apply List.find_some in Hq2 as [_ Hq2]. congruence.
Qed.

Lemma X17_deleted_product_is_hidden_not_gone_witness :
  products_get_by_barcode (fst (products_delete initial_state "PROD001"))
    "1234567890123"
  = ApiResponse.ok (Product.set_status Product.inactive espresso).
Proof.
  destruct (X17_deleted_product_is_hidden_not_gone initial_state "PROD001"
              espresso eq_refl)
    as (l1 & l2 & _ & _ & _ & _ & _ & _ & Hscan).
  apply Hscan. reflexivity.
Defined.


End HiddenAndSettingsClaims.

Section CartMoreFacts.
Import Mock CartStore.

(** With the cart's prices and VAT rates those of the catalogue, the loop
    of [invoices_create] adds to its sums what the cart's getters add. *)
Lemma create_loop_cart ps invoice_id (cart : list CartItem.t) :
  Forall (fun item =>
            exists p,
              find_product ps (pid item) = Some p
              /\ Product.price p = Product.price (CartItem.product item)
              /\ Product.vat_rate p
                 = Product.vat_rate (CartItem.product item)) cart ->
  forall subtotal vatTotal invoiceItems,
  exists its,
    create_loop ps invoice_id (InvoicePage.request_of <$> cart)
      subtotal vatTotal invoiceItems
    = inr (fold_left
             (fun sum item =>
                PrimFloat.add sum
                  (PrimFloat.mul (Product.price (CartItem.product item))
                     (CartItem.quantity item))) cart subtotal,
           fold_left
             (fun sum item =>
                PrimFloat.add sum
                  (PrimFloat.mul
                     (PrimFloat.mul (Product.price (CartItem.product item))
                        (CartItem.quantity item))
                     (PrimFloat.div
                        (Product.vat_rate (CartItem.product item))
                        100%float))) cart vatTotal,
           its)
    /\ length its = length invoiceItems + length cart.
Proof.
  induction 1 as [|item cart (p & Hp & Hprice & Hvat) _ IH];
    intros sub vat acc; simpl.
  - exists acc. split; [reflexivity|lia].
  - unfold pid in Hp. rewrite Hp, Hprice, Hvat.
    destruct (IH (PrimFloat.add sub
                    (PrimFloat.mul (Product.price (CartItem.product item))
                       (CartItem.quantity item)))
                 (PrimFloat.add vat
                    (PrimFloat.mul
                       (PrimFloat.mul
                          (Product.price (CartItem.product item))
                          (CartItem.quantity item))
                       (PrimFloat.div
                          (Product.vat_rate (CartItem.product item))
                          100%float)))
                 (acc ++
                  [InvoiceItem.mk (N.of_nat (length acc) + 1) invoice_id
                     (Product.id p) (Product.name p)
                     (CartItem.quantity item)
                     (Product.price (CartItem.product item))
                     (Product.vat_rate (CartItem.product item))
                     (PrimFloat.mul (Product.price (CartItem.product item))
                        (CartItem.quantity item)) ReturnStatus.none]))
      as (its & Hloop & Hlen).
    exists its. split; [exact Hloop|].
    rewrite Hlen, length_app. simpl. lia.
Qed.

Lemma filter_all {A} (P : A -> Prop) `{forall x, Decision (P x)}
    (l : list A) :
  Forall P l -> filter P l = l.
Proof.
  induction 1 as [|x l Hx _ IH]; [done|].
  rewrite filter_cons_True by done. by rewrite IH.
Qed.

End CartMoreFacts.

Section CartMoreClaims.
Import Mock CartStore Scenario.

(** X19: [removeItem] leaves a cart in which the product id does not
    occur, keeps all other entries in their order, and changes nothing
    when the id is not in the cart.  [updateQuantity] with a quantity
    that is [<= 0] does the same as [removeItem]; with any other quantity
    it keeps the entries and their products in place and writes the
    quantity into every entry of that product id, and only there. *)
Theorem X19_remove_and_update_quantity (items : list CartItem.t)
    (productId : string) (quantity : float) :
  (productId ∉ pid <$> removeItem productId items)
  /\ (removeItem productId items `sublist_of` items)
  /\ (forall item,
        item ∈ removeItem productId items
        <-> item ∈ items /\ pid item <> productId)
  /\ (productId ∉ pid <$> items -> removeItem productId items = items)
  /\ (PrimFloat.leb quantity 0%float = true ->
      updateQuantity productId quantity items = removeItem productId items)
  /\ (PrimFloat.leb quantity 0%float = false ->
      length (updateQuantity productId quantity items) = length items
      /\ forall k item,
           items !! k = Some item ->
           updateQuantity productId quantity items !! k
           = Some (if decide (pid item = productId)
                   then CartItem.mk (CartItem.product item) quantity
                   else item)).
Proof.
  unfold removeItem, updateQuantity.
  split; [|split; [|split; [|split; [|split]]]].
  - intros Hin. apply list_elem_of_fmap in Hin as (item & Heq & Hitem).
    apply list_elem_of_filter in Hitem as [Hne _]. by symmetry in Heq.
  - apply sublist_filter.
  - intros item. rewrite list_elem_of_filter. tauto.
  - intros Hnot. apply filter_all. apply Forall_forall.
    intros item Hitem Heq. apply Hnot. rewrite <- Heq.
    by apply list_elem_of_fmap_2.
  - by intros ->.
  - intros ->. split; [apply length_fmap|].
    intros k item Hk. by rewrite list_lookup_fmap, Hk.
Qed.

(** X20: toggling a line id in the return selection of the scan page
    flips the membership of that id and of no other id, and a selection
    without repetition stays without repetition. *)
Theorem X20_toggle_flips_one_membership (itemId : N) (prev : list N) :
  (itemId ∈ ScanPage.handleToggleItem itemId prev <-> itemId ∉ prev)
  /\ (forall x,
        x <> itemId ->
        x ∈ ScanPage.handleToggleItem itemId prev <-> x ∈ prev)
  /\ (NoDup prev -> NoDup (ScanPage.handleToggleItem itemId prev)).
Proof.
  unfold ScanPage.handleToggleItem.
  assert (Hinc : JS.includes prev itemId = true <-> itemId ∈ prev).
  { unfold JS.includes. rewrite existsb_exists. split.
    - intros (x & Hx & Heq). apply N.eqb_eq in Heq as ->.
      by apply list_elem_of_In.
    - intros Hin. exists itemId. split; [by apply list_elem_of_In|].
      apply N.eqb_refl. }
  assert (Hfil : forall x,
             x ∈ List.filter (fun id => negb (N.eqb id itemId)) prev
             <-> x ∈ prev /\ x <> itemId).
  { intros x. rewrite !list_elem_of_In, filter_In.
    rewrite negb_true_iff, N.eqb_neq. tauto. }
  destruct (JS.includes prev itemId) eqn:Hin.
  - assert (Hmem : itemId ∈ prev) by by apply Hinc.
    split; [|split].
    + rewrite Hfil. tauto.
    + intros x Hx. rewrite Hfil. tauto.
    + intros Hnd. apply NoDup_ListNoDup. apply List.NoDup_filter.
      by apply NoDup_ListNoDup.
  - assert (Hmem : itemId ∉ prev).
    { intros H. apply Hinc in H. congruence. }
    split; [|split].
    + rewrite elem_of_app, list_elem_of_singleton. tauto.
    + intros x Hx. rewrite elem_of_app, list_elem_of_singleton. tauto.
    + intros Hnd. apply NoDup_app. split; [done|].
      split; [|apply NoDup_singleton].
      intros x Hx Hx'. apply list_elem_of_singleton in Hx' as ->. done.
Qed.

End CartMoreClaims.

Section CheckoutFacts.
Import Mock.

(** Requests that got their lines all resolve. *)
Lemma lines_resolve ps invoice_id (reqs : list ItemRequest.t)
    (new : list InvoiceItem.t) :
  Forall2 (line_for ps invoice_id) reqs new -> Forall (resolves ps) reqs.
Proof.
  induction 1 as [|req it reqs new (p & Hp & _) _ IH]; constructor;
    [|exact IH].
  unfold resolves. by rewrite Hp.
Qed.

End CheckoutFacts.

Section CheckoutClaims.
Import Mock CartStore Scenario.

(** X21: checking out a non-empty cart whose products are all in the
    catalogue under their ids, with the cart's prices and VAT rates,
    succeeds: the invoice has one line per cart entry, its subtotal, VAT
    amount and total are the cart's [getSubtotal], [getVatAmount] and
    [getTotal] rounded to cents, it carries the chosen payment method
    and no customer email, it is stored and kept as the completed
    invoice, and the cart is emptied and the dialog closed. *)
Theorem X21_checkout_totals_are_the_cart_totals (s : state) (clk : clock)
    (cart : list CartItem.t) (pg : InvoicePage.page) (pm : string) :
  cart <> [] ->
  Forall (fun item =>
            exists p,
              find_product (sampleProducts s) (pid item) = Some p
              /\ Product.price p = Product.price (CartItem.product item)
              /\ Product.vat_rate p
                 = Product.vat_rate (CartItem.product item)) cart ->
  exists inv,
    InvoicePage.handleCheckout s clk cart pg pm
    = (mkState (sampleProducts s) (sampleInvoices s ++ [inv])
         (mockSettings s) (invoiceCounter s + 1)%N,
       [], InvoicePage.mkPage false false (Some inv))
    /\ Invoice.subtotal inv = round_cents (getSubtotal cart)
    /\ Invoice.vat_amount inv = round_cents (getVatAmount cart)
    /\ Invoice.total inv = round_cents (getTotal cart)
    /\ length (Invoice.items inv) = length cart
    /\ Invoice.payment_method inv = pm
    /\ Invoice.customer_email inv = None.
Proof.
  intros Hne Hcart.
  destruct (create_loop_cart (sampleProducts s) (invoiceCounter s + 1)%N
              cart Hcart PrimFloat.zero PrimFloat.zero [])
    as (its & Hloop & Hlen).
  unfold InvoicePage.handleCheckout.
  destruct cart as [|item cart]; [done|].
  unfold invoices_create. rewrite Hloop. simpl.
  eexists. split; [reflexivity|]. by repeat split.
Qed.

Lemma X21_checkout_totals_are_the_cart_totals_witness :
  exists inv,
    InvoicePage.handleCheckout initial_state clk1 cart1
      (InvoicePage.mkPage false true None) "cash"
    = (mkState sampleProducts0 (sampleInvoices0 ++ [inv]) mockSettings0 2,
       [], InvoicePage.mkPage false false (Some inv))
    /\ Invoice.subtotal inv = round_cents (getSubtotal cart1).
Proof.
  destruct (X21_checkout_totals_are_the_cart_totals initial_state clk1
              cart1 (InvoicePage.mkPage false true None) "cash")
    as (inv & H1 & H2 & _).
  - discriminate.
  - repeat constructor. eexists. split; [reflexivity|]. by split.
  - exists inv. by split.
Defined.

(** X22: a checkout of an empty cart does nothing at all, not even
    advance the invoice counter; a checkout of a cart with a product id
    that the catalogue does not have stores no invoice, keeps the cart,
    the dialog and the completed invoice as they were, and advances the
    counter by one. *)
Theorem X22_checkout_that_creates_nothing (s : state) (clk : clock)
    (pg : InvoicePage.page) (pm : string) :
  InvoicePage.handleCheckout s clk [] pg pm = (s, [], pg)
  /\ forall cart,
       cart <> [] ->
       ~ Forall (fun item =>
                   is_Some (find_product (sampleProducts s) (pid item)))
           cart ->
       InvoicePage.handleCheckout s clk cart pg pm
       = (mkState (sampleProducts s) (sampleInvoices s) (mockSettings s)
            (invoiceCounter s + 1)%N,
          cart,
          InvoicePage.mkPage false (InvoicePage.showCheckout pg)
            (InvoicePage.completedInvoice pg)).
Proof.
  split; [reflexivity|]. intros cart Hne Hnot.
  unfold InvoicePage.handleCheckout.
  destruct cart as [|item cart]; [done|].
  unfold invoices_create.
  destruct (create_loop _ _ _ _ _ _) as [err|[[sub vat] its]] eqn:Hloop;
    [reflexivity|].
  exfalso. apply Hnot.
  apply create_loop_lines in Hloop as (new & _ & Hlines & _).
  apply lines_resolve in Hlines. unfold resolves in Hlines.
  rewrite Forall_fmap in Hlines. exact Hlines.
Qed.

End CheckoutClaims.
